(** * akbari-editor: streaming AI actions and chat over a rich-text widget

    A shallow embedding of the script blocks of the editor components and of
    the completion client [use-groq], followed by the properties of the
    selection-scoped streaming replacement, the chat send and the client.

    JavaScript strings are sequences of UTF-16 code units; [length] is then
    the [.length] of the source and the unit of the widget's positions. *)

From Stdlib Require Import String Ascii.
From Stdlib Require Import List Arith Bool NArith QArith Lia.
Import ListNotations.

Set Implicit Arguments.
Local Open Scope nat_scope.
Local Open Scope list_scope.

(** ** JavaScript strings *)

Definition jsstring := list N.

(** An ASCII literal of the source as a sequence of code units. *)
Definition lit (s : string) : jsstring :=
  map N_of_ascii (list_ascii_of_string s).
Arguments lit s : simpl never.

(** The double quote, U+0022, and the line feed of a template literal. *)
Definition dquote : jsstring := [34%N].
Definition newline : jsstring := [10%N].

(** Truthiness of a string: every string but the empty one. *)
Definition truthy (s : jsstring) : bool :=
  match s with
  | [] => false
  | _ :: _ => true
  end.

(** [a || b] on strings. *)
Definition orElse (a b : jsstring) : jsstring :=
  if truthy a then a else b.

(** WhiteSpace and LineTerminator code points, as [String.prototype.trim]
    strips them. *)
Definition isWhiteSpace (c : N) : bool :=
  ((9 <=? c) && (c <=? 13) || (c =? 32) || (c =? 160) || (c =? 5760)
   || (8192 <=? c) && (c <=? 8202) || (c =? 8232) || (c =? 8233)
   || (c =? 8239) || (c =? 8287) || (c =? 12288) || (c =? 65279))%N.

Fixpoint trimStart (s : jsstring) : jsstring :=
  match s with
  | [] => []
  | c :: rest => if isWhiteSpace c then trimStart rest else s
  end.

Definition trim (s : jsstring) : jsstring :=
  rev (trimStart (rev (trimStart s))).

(** ** Data model *)

(** interface SelectionRange *)
Record SelectionRange := mkRange { from : nat; to : nat }.

(** interface StreamingState *)
Record StreamingState := mkState {
  isStreaming : bool;
  error : option jsstring;
  insertedLength : nat
}.

Inductive Role := system | user | assistant.

(** A role-tagged message of a completion request. *)
Record Message := mkMessage { role : Role; content : jsstring }.

(** interface ChatMessage; its role is only ever [user] or [assistant]. *)
Definition ChatMessage := Message.

(** The argument object of [groq.chat.completions.create]. *)
Record Request := mkRequest {
  messages : list Message;
  model : jsstring;
  stream : bool;
  temperature : Q;
  max_tokens : nat
}.

(** A streamed chunk, as far as the handlers look into it:
    [chunk.choices[0]?.delta?.content]. *)
Record Delta := mkDelta { deltaContent : option jsstring }.
Record Choice := mkChoice { delta : option Delta }.
Record Chunk := mkChunk { choices : list Choice }.

(** A chunk that carries the text [s] as its first choice's delta. *)
Definition textChunk (s : jsstring) : Chunk :=
  mkChunk [mkChoice (Some (mkDelta (Some s)))].

(** [chunk.choices[0]?.delta?.content || ''] *)
Definition contentOf (chunk : Chunk) : jsstring :=
  orElse
    match choices chunk with
    | [] => []
    | c :: _ =>
        match delta c with
        | None => []
        | Some d =>
            match deltaContent d with
            | None => []
            | Some s => s
            end
        end
    end
    [].

(** A thrown value: an [Error] with its message, or anything else. *)
Inductive Thrown :=
| JsError (message : jsstring)
| NotAnError.

(** ** The document widget

    The handlers use four operations of the editor widget: the current
    selection, the text between two positions, the replacement of a range by
    a text node followed by the dispatch of that transaction, and the HTML
    export.  [replaceWith] is [None] when building or dispatching the
    transaction throws.  [textBetween e a b] is what reading the range
    returns; [textBetweenThrows e a b] is [Some t] when the widget throws
    [t] instead, as it does for a range that ends past the document. *)
Class Widget (E : Type) := {
  selection : E -> SelectionRange;
  textBetween : E -> nat -> nat -> jsstring;
  replaceWith : E -> nat -> nat -> jsstring -> option E;
  getHTML : E -> jsstring;
  textBetweenThrows : E -> nat -> nat -> option Thrown
}.

(** ** The endpoint as seen by a handler

    While a handler is suspended on the stream, a chunk arrives or the user
    edits the document; the stream then ends or throws.  Creating the stream
    can itself be rejected. *)
Inductive Item (E : Type) :=
| Arrives (chunk : Chunk)
| UserEdit (edit : E -> E).
Arguments Arrives {E} chunk.
Arguments UserEdit {E} edit.

Inductive Ending := Exhausted | Failed (t : Thrown).

Record ChatStream (E : Type) := mkStream {
  items : list (Item E);
  ending : Ending
}.

Inductive Response (E : Type) :=
| Rejected (t : Thrown)
| Opened (s : ChatStream E).
Arguments Rejected {E} t.
Arguments Opened {E} s.

(** One call of [tr.replaceWith(from, to, schema.text(text))], accepted or
    not. *)
Record ReplaceCall := mkCall {
  callFrom : nat;
  callTo : nat;
  callText : jsstring
}.

(** How a computation ends: with a value, or by throwing. *)
Inductive Outcome (A : Type) :=
| Normal (a : A)
| Throws (t : Thrown).
Arguments Normal {A} a.
Arguments Throws {A} t.

Section Effects.

Variable E : Type.

(** The refs of the component, with the effects it has on its
    collaborators: the requests sent to the endpoint, the replacements asked
    of the widget, and the labels written with [console.error]. *)
Record World := mkWorld {
  editor : option E;
  state : StreamingState;
  selectionRange : option SelectionRange;
  chatMessages : list ChatMessage;
  newMessage : jsstring;
  isChatLoading : bool;
  requests : list Request;
  replaceCalls : list ReplaceCall;
  console : list jsstring
}.

Definition set_editor (e : option E) (w : World) : World :=
  mkWorld e (state w) (selectionRange w) (chatMessages w) (newMessage w)
          (isChatLoading w) (requests w) (replaceCalls w) (console w).

Definition set_state (s : StreamingState) (w : World) : World :=
  mkWorld (editor w) s (selectionRange w) (chatMessages w) (newMessage w)
          (isChatLoading w) (requests w) (replaceCalls w) (console w).

Definition set_isStreaming (b : bool) (w : World) : World :=
  set_state (mkState b (error (state w)) (insertedLength (state w))) w.

Definition set_error (e : option jsstring) (w : World) : World :=
  set_state (mkState (isStreaming (state w)) e (insertedLength (state w))) w.

Definition set_insertedLength (n : nat) (w : World) : World :=
  set_state (mkState (isStreaming (state w)) (error (state w)) n) w.

Definition set_selectionRange (r : option SelectionRange) (w : World) : World :=
  mkWorld (editor w) (state w) r (chatMessages w) (newMessage w)
          (isChatLoading w) (requests w) (replaceCalls w) (console w).

Definition push_chatMessage (m : ChatMessage) (w : World) : World :=
  mkWorld (editor w) (state w) (selectionRange w) (chatMessages w ++ [m])
          (newMessage w) (isChatLoading w) (requests w) (replaceCalls w)
          (console w).

Definition set_newMessage (s : jsstring) (w : World) : World :=
  mkWorld (editor w) (state w) (selectionRange w) (chatMessages w) s
          (isChatLoading w) (requests w) (replaceCalls w) (console w).

Definition set_isChatLoading (b : bool) (w : World) : World :=
  mkWorld (editor w) (state w) (selectionRange w) (chatMessages w)
          (newMessage w) b (requests w) (replaceCalls w) (console w).

Definition log_request (r : Request) (w : World) : World :=
  mkWorld (editor w) (state w) (selectionRange w) (chatMessages w)
          (newMessage w) (isChatLoading w) (requests w ++ [r])
          (replaceCalls w) (console w).

Definition log_replaceCall (c : ReplaceCall) (w : World) : World :=
  mkWorld (editor w) (state w) (selectionRange w) (chatMessages w)
          (newMessage w) (isChatLoading w) (requests w)
          (replaceCalls w ++ [c]) (console w).

Definition log_console (label : jsstring) (w : World) : World :=
  mkWorld (editor w) (state w) (selectionRange w) (chatMessages w)
          (newMessage w) (isChatLoading w) (requests w) (replaceCalls w)
          (console w ++ [label]).

(** ** Effects: state passing with exceptions *)

Definition Eff (A : Type) := World -> Outcome A * World.

Definition ret {A} (a : A) : Eff A := fun w => (Normal a, w).

Definition bind {A B} (m : Eff A) (k : A -> Eff B) : Eff B :=
  fun w =>
    match m w with
    | (Normal a, w') => k a w'
    | (Throws t, w') => (Throws t, w')
    end.

Definition throw {A} (t : Thrown) : Eff A := fun w => (Throws t, w).

Definition get : Eff World := fun w => (Normal w, w).

Definition modify (f : World -> World) : Eff unit := fun w => (Normal tt, f w).

(** [try { body } catch (error) { handler } finally { finalizer }], for a
    handler and a finalizer that do not throw. *)
Definition tryCatchFinally (body : Eff unit) (handler : Thrown -> World -> World)
    (finalizer : World -> World) : Eff unit :=
  fun w =>
    match body w with
    | (Normal _, w') => (Normal tt, finalizer w')
    | (Throws t, w') => (Normal tt, finalizer (handler t w'))
    end.

(** The refs after a handler has run to its end. *)
Definition run (m : Eff unit) (w : World) : World := snd (m w).

End Effects.

Arguments editor {E} w.
Arguments state {E} w.
Arguments selectionRange {E} w.
Arguments chatMessages {E} w.
Arguments newMessage {E} w.
Arguments isChatLoading {E} w.
Arguments requests {E} w.
Arguments replaceCalls {E} w.
Arguments console {E} w.
Arguments set_editor {E} e w.
Arguments set_state {E} s w.
Arguments set_isStreaming {E} b w.
Arguments set_error {E} e w.
Arguments set_insertedLength {E} n w.
Arguments set_selectionRange {E} r w.
Arguments push_chatMessage {E} m w.
Arguments set_newMessage {E} s w.
Arguments set_isChatLoading {E} b w.
Arguments log_request {E} r w.
Arguments log_replaceCall {E} c w.
Arguments log_console {E} label w.
Arguments ret {E A} a w.
Arguments bind {E A B} m k w.
Arguments throw {E A} t w.
Arguments get {E} w.
Arguments modify {E} f w.
Arguments tryCatchFinally {E} body handler finalizer w.
Arguments run {E} m w.

Declare Scope eff_scope.
Delimit Scope eff_scope with eff.
Notation "x <- m ;; k" := (bind m (fun x => k))
  (at level 61, m at next level, right associativity) : eff_scope.
Notation "m ;; k" := (bind m (fun _ => k))
  (at level 61, right associativity) : eff_scope.

(** ** The completion client (composables/use-groq) *)

Section Client.

Context {E : Type}.

(** getGroqChatCompletion: one [create] call with the given messages; what
    comes back is the endpoint's answer [resp]. *)
Definition getGroqChatCompletion (resp : Response E) (msgs : list Message)
    : Eff E (ChatStream E) :=
  (modify (log_request
     (mkRequest msgs (lit "llama3-8b-8192") true (7 # 10) 1024)) ;;
   match resp with
   | Rejected t => throw t
   | Opened s => ret s
   end)%eff.

(** [for await (const chunk of chatStream) body], with the variable the body
    updates threaded through.  A user edit between two chunks changes the
    widget and nothing else. *)
Definition userEdit (edit : E -> E) (w : World E) : World E :=
  set_editor (option_map edit (editor w)) w.

Fixpoint forAwaitItems {A} (its : list (Item E)) (fin : Ending)
    (body : Chunk -> A -> Eff E A) (a : A) : Eff E A :=
  match its with
  | [] =>
      match fin with
      | Exhausted => ret a
      | Failed t => throw t
      end
  | Arrives chunk :: rest =>
      (a' <- body chunk a ;; forAwaitItems rest fin body a')%eff
  | UserEdit edit :: rest =>
      (modify (userEdit edit) ;; forAwaitItems rest fin body a)%eff
  end.

Definition forAwait {A} (s : ChatStream E) (body : Chunk -> A -> Eff E A)
    (a : A) : Eff E A :=
  forAwaitItems (items s) (ending s) body a.

End Client.

(** ** The editor component (script block of the editor with chat) *)

Section Component.

Context {E : Type} `{Widget E}.

Local Open Scope eff_scope.

(** hasSelection (computed) *)
Definition hasSelection (w : World E) : bool :=
  match editor w with
  | None => false
  | Some e => negb (from (selection e) =? to (selection e))
  end.

(** getSelectedText: the text of the captured range, not of the live
    selection.  This is the value a call returns; the AI handlers call it
    on the live selection they have captured on the line before, which
    lies in the document. *)
Definition getSelectedText (w : World E) : jsstring :=
  match editor w, selectionRange w with
  | Some e, Some r => textBetween e (from r) (to r)
  | _, _ => []
  end.

(** What a call of getSelectedText throws, if it does: what the widget
    throws when it reads the captured range.  Without an editor or a
    captured range the widget is not asked. *)
Definition getSelectedText_throws (w : World E) : option Thrown :=
  match editor w, selectionRange w with
  | Some e, Some r => textBetweenThrows e (from r) (to r)
  | _, _ => None
  end.

(** A call of getSelectedText on a range captured earlier. *)
Definition getSelectedText_call : Eff E jsstring :=
  fun w =>
    match getSelectedText_throws w with
    | Some t => (Throws t, w)
    | None => (Normal (getSelectedText w), w)
    end.

(** replaceSelection *)
Definition replaceSelection (newText : jsstring) (w : World E) : World E :=
  match editor w, selectionRange w with
  | Some e, Some r =>
      let currentFrom := from r in
      let currentTo := from r + insertedLength (state w) in
      let w := log_replaceCall (mkCall currentFrom currentTo newText) w in
      match replaceWith e currentFrom currentTo newText with
      | Some e' =>
          set_insertedLength (length newText) (set_editor (Some e') w)
      | None =>
          log_console (lit "Error replacing selection:")
            (set_error (Some (lit "Error replacing selection")) w)
      end
  | _, _ => w
  end.

(** createMessages *)
Definition createMessages (selectedText : jsstring) : list Message :=
  [ mkMessage system
      (lit "You are a helpful writing assistant. Summarize the given text while maintaining its core meaning. Keep your response focused and concise.");
    mkMessage user
      (lit "Summarize this text: " ++ dquote ++ selectedText ++ dquote) ].

(** The body of the loop of [summarize]: the accumulated text grows by the
    chunk's content and is written over the window. *)
Definition summarize_onChunk (chunk : Chunk) (enhancedText : jsstring)
    : Eff E jsstring :=
  let content := contentOf chunk in
  if truthy content then
    let enhancedText := enhancedText ++ content in
    modify (replaceSelection enhancedText) ;;
    ret enhancedText
  else ret enhancedText.

(** The [try] block of [summarize]. *)
Definition summarize_try (resp : Response E) : Eff E unit :=
  modify (set_isStreaming true) ;;
  modify (set_error None) ;;
  modify (set_insertedLength 0) ;;
  w <- get ;;
  match editor w with
  | None => throw (JsError (lit "Editor is not initialized."))
  | Some e =>
      modify (set_selectionRange
                (Some (mkRange (from (selection e)) (to (selection e))))) ;;
      w <- get ;;
      let selectedText := getSelectedText w in
      if negb (truthy selectedText)
      then throw (JsError (lit "No text selected."))
      else
        chatStream <- getGroqChatCompletion resp (createMessages selectedText) ;;
        _ <- forAwait chatStream summarize_onChunk [] ;;
        ret tt
  end.

(** Its [catch] and [finally] blocks. *)
Definition summarize_catch (error : Thrown) (w : World E) : World E :=
  log_console (lit "Error streaming:")
    (set_error
       (Some match error with
             | JsError message => message
             | NotAnError => lit "An unknown error occurred"
             end) w).

Definition summarize_finally (w : World E) : World E :=
  set_insertedLength 0 (set_selectionRange None (set_isStreaming false w)).

(** summarize *)
Definition summarize (resp : Response E) : Eff E unit :=
  w <- get ;;
  if negb (hasSelection w) || isStreaming (state w) then ret tt
  else tryCatchFinally (summarize_try resp) summarize_catch summarize_finally.

(** The system message of a chat send: a template literal over the
    selection in use and the document export. *)
Definition chatSystemPrompt (currentSelection editorContent : jsstring)
    : jsstring :=
  lit "You are a helpful writing assistant. You have access to the following context:"
  ++ newline ++ lit "          "
  ++ (if truthy currentSelection
      then lit "- Selected text: " ++ dquote ++ currentSelection ++ dquote
      else [])
  ++ newline ++ lit "          - Full document: "
  ++ dquote ++ editorContent ++ dquote
  ++ newline ++ lit "          "
  ++ newline ++ lit "          Help the user with their writing by providing specific, contextual answers."
  ++ newline ++ lit "          When referring to text, you can quote relevant parts to make your answers clearer.".

(** sendMessage; [selectedText] is [None] when the caller leaves the
    parameter out and its default applies. *)
Definition sendMessage (resp : Response E) (text : jsstring)
    (selectedText : option jsstring) : Eff E unit :=
  let selectedText :=
    match selectedText with
    | Some s => s
    | None => []
    end in
  if negb (truthy (trim text)) then ret tt
  else
    tryCatchFinally
      (modify (set_isChatLoading true) ;;
       modify (push_chatMessage (mkMessage user text)) ;;
       w <- get ;;
       let editorContent :=
         orElse match editor w with
                | Some e => getHTML e
                | None => []
                end [] in
       currentSelection <-
         (if truthy selectedText then ret selectedText
          else getSelectedText_call) ;;
       let messages :=
         [ mkMessage system (chatSystemPrompt currentSelection editorContent);
           mkMessage user text ] in
       chatStream <- getGroqChatCompletion resp messages ;;
       response <-
         forAwait chatStream
           (fun chunk response =>
              let content := contentOf chunk in
              if truthy content then ret (response ++ content)
              else ret response) [] ;;
       modify (push_chatMessage (mkMessage assistant response)))
      (fun error w => log_console (lit "Chat error:") w)
      (fun w => set_newMessage [] (set_isChatLoading false w)).

(** handleQuickAction: a chat send about the selection (the send is
    started and not awaited; its effects are the same). *)
Definition handleQuickAction (resp : Response E) (prompt : jsstring)
    : Eff E unit :=
  w <- get ;;
  if negb (hasSelection w) then ret tt
  else
    selectedText <- getSelectedText_call ;;
    sendMessage resp prompt (Some selectedText).

(** The context indicator of the template.  With a selection it is the
    label "Selected text:" followed by the first 50 units of
    [getSelectedText()] and by an ellipsis when the text is longer; without
    one it is the line "Full document context enabled". *)
Inductive ContextIndicator :=
| SelectedTextLine (shown : jsstring)
| FullDocumentLine.

Definition contextIndicator (w : World E) : Outcome ContextIndicator :=
  if hasSelection w then
    match getSelectedText_throws w with
    | Some t => Throws t
    | None =>
        Normal (SelectedTextLine
                  (firstn 50 (getSelectedText w)
                   ++ (if 50 <? length (getSelectedText w) then lit "..."
                       else [])))
    end
  else Normal FullDocumentLine.

(** quickActions: the three handlers, written out one by one as in the
    source. *)
Record QuickAction := mkAction {
  label : jsstring;
  handler : Response E -> Eff E unit
}.

Definition quickActions : list QuickAction :=
  [ mkAction (lit "Summarize")
      (fun resp =>
         w <- get ;;
         if negb (hasSelection w) || isStreaming (state w) then ret tt
         else
           tryCatchFinally
             (modify (set_isStreaming true) ;;
              modify (set_error None) ;;
              modify (set_insertedLength 0) ;;
              w <- get ;;
              match editor w with
              | None => throw (JsError (lit "Editor is not initialized."))
              | Some e =>
                  modify (set_selectionRange
                    (Some (mkRange (from (selection e)) (to (selection e))))) ;;
                  w <- get ;;
                  let selectedText := getSelectedText w in
                  if negb (truthy selectedText)
                  then throw (JsError (lit "No text selected."))
                  else
                    let messages :=
                      [ mkMessage system
                          (lit "You are a helpful writing assistant. Summarize the given text while maintaining its core meaning. Keep your response focused and concise.");
                        mkMessage user
                          (lit "Summarize this text: " ++ dquote
                           ++ selectedText ++ dquote) ] in
                    chatStream <- getGroqChatCompletion resp messages ;;
                    _ <- forAwait chatStream
                           (fun chunk enhancedText =>
                              let content := contentOf chunk in
                              if truthy content then
                                let enhancedText := enhancedText ++ content in
                                modify (replaceSelection enhancedText) ;;
                                ret enhancedText
                              else ret enhancedText) [] ;;
                    ret tt
              end)
             (fun error w =>
                log_console (lit "Error streaming:")
                  (set_error
                     (Some match error with
                           | JsError message => message
                           | NotAnError => lit "An unknown error occurred"
                           end) w))
             (fun w =>
                set_insertedLength 0
                  (set_selectionRange None (set_isStreaming false w))));
    mkAction (lit "Improve")
      (fun resp =>
         w <- get ;;
         if negb (hasSelection w) || isStreaming (state w) then ret tt
         else
           tryCatchFinally
             (modify (set_isStreaming true) ;;
              modify (set_error None) ;;
              modify (set_insertedLength 0) ;;
              w <- get ;;
              match editor w with
              | None => throw (JsError (lit "Editor is not initialized."))
              | Some e =>
                  modify (set_selectionRange
                    (Some (mkRange (from (selection e)) (to (selection e))))) ;;
                  w <- get ;;
                  let selectedText := getSelectedText w in
                  if negb (truthy selectedText)
                  then throw (JsError (lit "No text selected."))
                  else
                    let messages :=
                      [ mkMessage system
                          (lit "You are a helpful writing assistant. Improve the given text while maintaining its core meaning. Make it more clear, concise, and engaging.");
                        mkMessage user
                          (lit "Improve this text: " ++ dquote
                           ++ selectedText ++ dquote) ] in
                    chatStream <- getGroqChatCompletion resp messages ;;
                    _ <- forAwait chatStream
                           (fun chunk enhancedText =>
                              let content := contentOf chunk in
                              if truthy content then
                                let enhancedText := enhancedText ++ content in
                                modify (replaceSelection enhancedText) ;;
                                ret enhancedText
                              else ret enhancedText) [] ;;
                    ret tt
              end)
             (fun error w =>
                log_console (lit "Error streaming:")
                  (set_error
                     (Some match error with
                           | JsError message => message
                           | NotAnError => lit "An unknown error occurred"
                           end) w))
             (fun w =>
                set_insertedLength 0
                  (set_selectionRange None (set_isStreaming false w))));
    mkAction (lit "Complete")
      (fun resp =>
         w <- get ;;
         if negb (hasSelection w) || isStreaming (state w) then ret tt
         else
           tryCatchFinally
             (modify (set_isStreaming true) ;;
              modify (set_error None) ;;
              modify (set_insertedLength 0) ;;
              w <- get ;;
              match editor w with
              | None => throw (JsError (lit "Editor is not initialized."))
              | Some e =>
                  modify (set_selectionRange
                    (Some (mkRange (from (selection e)) (to (selection e))))) ;;
                  w <- get ;;
                  let selectedText := getSelectedText w in
                  if negb (truthy selectedText)
                  then throw (JsError (lit "No text selected."))
                  else
                    let messages :=
                      [ mkMessage system
                          (lit "You are a helpful writing assistant. Complete the given text in a natural and coherent way that follows from the existing content.");
                        mkMessage user
                          (lit "Complete this text naturally: " ++ dquote
                           ++ selectedText ++ dquote) ] in
                    chatStream <- getGroqChatCompletion resp messages ;;
                    _ <- forAwait chatStream
                           (fun chunk enhancedText =>
                              let content := contentOf chunk in
                              if truthy content then
                                let enhancedText := enhancedText ++ content in
                                modify (replaceSelection enhancedText) ;;
                                ret enhancedText
                              else ret enhancedText) [] ;;
                    ret tt
              end)
             (fun error w =>
                log_console (lit "Error streaming:")
                  (set_error
                     (Some match error with
                           | JsError message => message
                           | NotAnError => lit "An unknown error occurred"
                           end) w))
             (fun w =>
                set_insertedLength 0
                  (set_selectionRange None (set_isStreaming false w)))) ].

End Component.

(** ** A reference widget: one paragraph of plain text

    Positions are offsets into the text; the position one past the end of
    the text stands for the one after the paragraph.  A replacement is
    refused when the new text is empty (a text node cannot be empty), when
    it starts after the text or when it ends past the position after the
    paragraph; the live selection is mapped through an accepted replacement
    the way a transaction maps it.  Reading a range throws when the range
    ends past the position after the paragraph. *)

Record PlainDoc := mkDoc {
  text : jsstring;
  sel : SelectionRange
}.

(** Where a position ends up after [oldFrom, oldTo) is replaced by
    [newSize] units (the position sticks to the right of an insertion). *)
Definition mapPos (oldFrom oldTo newSize pos : nat) : nat :=
  if pos <? oldFrom then pos
  else if pos <=? oldTo then
    if negb (oldTo - oldFrom =? 0) && (pos =? oldFrom) then oldFrom
    else oldFrom + newSize
  else pos - (oldTo - oldFrom) + newSize.

Definition plain_textBetween (d : PlainDoc) (a b : nat) : jsstring :=
  firstn (b - a) (skipn a (text d)).

Definition plain_replaceWith (d : PlainDoc) (a b : nat) (t : jsstring)
    : option PlainDoc :=
  if truthy t && (a <=? b) && (a <=? length (text d))
     && (b <=? length (text d) + 1) then
    Some (mkDoc (firstn a (text d) ++ t ++ skipn b (text d))
                (mkRange (mapPos a b (length t) (from (sel d)))
                         (mapPos a b (length t) (to (sel d)))))
  else None.

Definition plain_textBetweenThrows (d : PlainDoc) (a b : nat)
    : option Thrown :=
  if b <=? length (text d) + 1 then None
  else Some (JsError
               (lit "Cannot read properties of undefined (reading 'nodeSize')")).

Definition escapeHTML (s : jsstring) : jsstring :=
  flat_map (fun c =>
    if (c =? 38)%N then lit "&amp;"
    else if (c =? 60)%N then lit "&lt;"
    else if (c =? 62)%N then lit "&gt;"
    else [c]) s.

Definition plain_getHTML (d : PlainDoc) : jsstring :=
  lit "<p>" ++ escapeHTML (text d) ++ lit "</p>".

#[export] Instance plain_widget : Widget PlainDoc := {
  selection := sel;
  textBetween := plain_textBetween;
  replaceWith := plain_replaceWith;
  getHTML := plain_getHTML;
  textBetweenThrows := plain_textBetweenThrows
}.

(** The component right after mount, over a given document. *)
Definition mounted {E : Type} (e : E) : World E :=
  mkWorld (Some e) (mkState false None 0) None [] [] false [] [] [].

(** A stream of text fragments that ends normally. *)
Definition fragments {E : Type} (fs : list jsstring) : Response E :=
  Opened (mkStream (map (fun f => Arrives (textChunk f)) fs) Exhausted).

(** ** Vocabulary of the statements *)

Section Vocabulary.

Context {E : Type} `{Widget E}.

(** The text a stream has delivered: the contents of its chunks, in order. *)
Definition accumulatedText (its : list (Item E)) : jsstring :=
  flat_map (fun it =>
    match it with
    | Arrives chunk => contentOf chunk
    | UserEdit _ => []
    end) its.

(** The number of chunks of a stream that carry text. *)
Definition textCount (its : list (Item E)) : nat :=
  length (filter (fun it =>
    match it with
    | Arrives chunk => truthy (contentOf chunk)
    | UserEdit _ => false
    end) its).

(** The user edits of a stream, applied in order. *)
Definition applyEdits (its : list (Item E)) (w : World E) : World E :=
  fold_left (fun w it =>
    match it with
    | Arrives _ => w
    | UserEdit edit => userEdit edit w
    end) its w.

(** The texts a stream makes the loop of an AI action write, one per chunk
    that carries text: the accumulated text after each of them. *)
Fixpoint accumulations (acc : jsstring) (its : list (Item E))
    : list jsstring :=
  match its with
  | [] => []
  | Arrives chunk :: rest =>
      if truthy (contentOf chunk)
      then (acc ++ contentOf chunk)
           :: accumulations (acc ++ contentOf chunk) rest
      else accumulations acc rest
  | UserEdit _ :: rest => accumulations acc rest
  end.

(** A stream without its chunks that carry no text. *)
Definition withoutEmptyChunks (its : list (Item E)) : list (Item E) :=
  filter (fun it =>
    match it with
    | Arrives chunk => truthy (contentOf chunk)
    | UserEdit _ => true
    end) its.

(** The message of a caught value, as the [catch] blocks read it. *)
Definition messageOf (t : Thrown) : jsstring :=
  match t with
  | JsError message => message
  | NotAnError => lit "An unknown error occurred"
  end.

(** A response that fails: the request is rejected or the stream throws. *)
Definition fails (resp : Response E) : Prop :=
  match resp with
  | Rejected _ => True
  | Opened s => ending s <> Exhausted
  end.

(** A request with the wording of its messages left out, and a world with
    the wording of every request left out. *)
Definition forgetContent (m : Message) : Message := mkMessage (role m) [].

Definition forgetMessages (r : Request) : Request :=
  mkRequest (map forgetContent (messages r)) (model r) (stream r)
            (temperature r) (max_tokens r).

Definition forgetWording (w : World E) : World E :=
  mkWorld (editor w) (state w) (selectionRange w) (chatMessages w)
          (newMessage w) (isChatLoading w) (map forgetMessages (requests w))
          (replaceCalls w) (console w).

(** *** The one parameterized operation of the specification

    The state machine of the selection-scoped streaming replacement, taking
    the system instruction and the wording of the user prompt as
    parameters.  It is written from the specification's description of the
    transitions, for comparison with the three handlers. *)

(** Idle to Capturing: record the selection range, reset insertedLength to
    0, reset the error, set the active flag. *)
Definition capturing (e : E) (w : World E) : World E :=
  set_selectionRange (Some (mkRange (from (selection e)) (to (selection e))))
    (set_insertedLength 0 (set_error None (set_isStreaming true w))).

(** Streaming, on a fragment: append it to the accumulated text, replace
    the window [captured.start, captured.start + insertedLength) by the
    accumulated text and set insertedLength to its length; a failed
    replacement is recorded and does not stop the stream. *)
Definition onFragment (fragment : jsstring) (p : jsstring * World E)
    : jsstring * World E :=
  let accumulated := fst p ++ fragment in
  let w := snd p in
  (accumulated,
   match editor w, selectionRange w with
   | Some e, Some captured =>
       let w := log_replaceCall
                  (mkCall (from captured)
                          (from captured + insertedLength (state w))
                          accumulated) w in
       match replaceWith e (from captured)
               (from captured + insertedLength (state w)) accumulated with
       | Some e' =>
           set_insertedLength (length accumulated) (set_editor (Some e') w)
       | None =>
           log_console (lit "Error replacing selection:")
             (set_error (Some (lit "Error replacing selection")) w)
       end
   | _, _ => w
   end).

Definition streaming (its : list (Item E)) (p : jsstring * World E)
    : jsstring * World E :=
  fold_left (fun p it =>
    match it with
    | Arrives chunk =>
        if truthy (contentOf chunk) then onFragment (contentOf chunk) p
        else p
    | UserEdit edit => (fst p, userEdit edit (snd p))
    end) its p.

(** Back to Idle: clear the active flag, the selection range and
    insertedLength. *)
Definition toIdle (w : World E) : World E :=
  set_insertedLength 0 (set_selectionRange None (set_isStreaming false w)).

(** A failure on the way: its message is recorded and logged. *)
Definition recordFailure (t : Thrown) (w : World E) : World E :=
  log_console (lit "Error streaming:") (set_error (Some (messageOf t)) w).

Definition parameterizedAction (systemInstruction promptWording : jsstring)
    (resp : Response E) (w : World E) : World E :=
  match editor w with
  | Some e =>
      if negb (from (selection e) =? to (selection e))
         && negb (isStreaming (state w))
      then
        let w := capturing e w in
        let selected :=
          textBetween e (from (selection e)) (to (selection e)) in
        if truthy selected then
          let w := log_request
            (mkRequest
               [ mkMessage system systemInstruction;
                 mkMessage user
                   (promptWording ++ dquote ++ selected ++ dquote) ]
               (lit "llama3-8b-8192") true (7 # 10) 1024) w in
          match resp with
          | Rejected t => toIdle (recordFailure t w)
          | Opened s =>
              let w := snd (streaming (items s) ([], w)) in
              match ending s with
              | Exhausted => toIdle w
              | Failed t => toIdle (recordFailure t w)
              end
          end
        else toIdle (recordFailure (JsError (lit "No text selected.")) w)
      else w
  | None => w
  end.

(** The world in which the stream is consumed: range captured, request
    sent. *)
Definition requested (systemInstruction promptWording : jsstring) (e : E)
    (w : World E) : World E :=
  log_request
    (mkRequest
       [ mkMessage system systemInstruction;
         mkMessage user
           (promptWording ++ dquote
            ++ textBetween e (from (selection e)) (to (selection e))
            ++ dquote) ]
       (lit "llama3-8b-8192") true (7 # 10) 1024)
    (capturing e w).

(** The document export a chat send embeds. *)
Definition exported (w : World E) : jsstring :=
  match editor w with
  | Some e => getHTML e
  | None => []
  end.

(** The selected text a chat send uses: its argument or, when that is
    left out or empty, the text of the captured range. *)
Definition selectionInUse (selectedText : option jsstring) (w : World E)
    : jsstring :=
  orElse match selectedText with
         | Some s => s
         | None => []
         end (getSelectedText w).

(** What a chat send throws before its request, if it does: a send with
    no (or an empty) selected-text argument reads the captured range, and
    the widget may throw there. *)
Definition readingThrows (selectedText : option jsstring) (w : World E)
    : option Thrown :=
  if truthy match selectedText with
            | Some s => s
            | None => []
            end
  then None
  else getSelectedText_throws w.

(** The component once a chat send has pushed the user message and sent
    its request. *)
Definition chatSent (text : jsstring) (selectedText : option jsstring)
    (w : World E) : World E :=
  log_request
    (mkRequest
       [ mkMessage system
           (chatSystemPrompt (selectionInUse selectedText w) (exported w));
         mkMessage user text ]
       (lit "llama3-8b-8192") true (7 # 10) 1024)
    (push_chatMessage (mkMessage user text) (set_isChatLoading true w)).

(** The AI actions of the component: [summarize] and the handlers of
    [quickActions]. *)
Definition aiHandlers : list (Response E -> Eff E unit) :=
  summarize :: map handler quickActions.

End Vocabulary.

(** The system instructions of the three actions. *)
Definition summarizeInstruction : jsstring :=
  lit "You are a helpful writing assistant. Summarize the given text while maintaining its core meaning. Keep your response focused and concise.".

Definition improveInstruction : jsstring :=
  lit "You are a helpful writing assistant. Improve the given text while maintaining its core meaning. Make it more clear, concise, and engaging.".

Definition completeInstruction : jsstring :=
  lit "You are a helpful writing assistant. Complete the given text in a natural and coherent way that follows from the existing content.".

(** ** Sample documents and streams *)

(** "Say: The quick brown fox. End", with the sentence selected. *)
Definition foxDoc : PlainDoc :=
  mkDoc (lit "Say: The quick brown fox. End") (mkRange 5 25).

(** The same document with the caret at the end and nothing selected. *)
Definition caretDoc : PlainDoc :=
  mkDoc (lit "Say: The quick brown fox. End") (mkRange 29 29).

(** A component in the middle of an AI action. *)
Definition busy : World PlainDoc :=
  set_selectionRange (Some (mkRange 5 25))
    (set_isStreaming true (mounted foxDoc)).

(** The user deletes everything after the first six units. *)
Definition cutAfterSix (d : PlainDoc) : PlainDoc :=
  mkDoc (firstn 6 (text d)) (mkRange 6 6).

(** The document [d] with [t] put in at the start of its selection, the
    selection moved along. *)
Definition inserted (d : PlainDoc) (t : jsstring) : PlainDoc :=
  if truthy t then
    mkDoc (firstn (from (sel d)) (text d) ++ t ++ skipn (from (sel d)) (text d))
          (mkRange (from (sel d) + length t) (to (sel d) + length t))
  else d.

(** A stream of chunks that ends normally, with no edit in between. *)
Definition quiet (chunks : list Chunk) : Response PlainDoc :=
  Opened (mkStream (map Arrives chunks) Exhausted).

(** A stream that has delivered one fragment so far. *)
Definition firstItems : list (Item PlainDoc) :=
  [Arrives (textChunk (lit "A"))].

(** The handler of the "Improve" and of the "Complete" button. *)
Definition improveAction : @QuickAction PlainDoc :=
  nth 1 quickActions (mkAction [] (fun _ => ret tt)).

Definition completeAction : @QuickAction PlainDoc :=
  nth 2 quickActions (mkAction [] (fun _ => ret tt)).

(** A stream that throws after its first fragment. *)
Definition brokenStream : Response PlainDoc :=
  Opened (mkStream [Arrives (textChunk (lit "Par"))]
                   (Failed (JsError (lit "Connection error.")))).

(** A document that is a single horizontal rule, selected as a node: the
    selection is not empty and holds no text.  Nothing below replaces in
    it. *)
Inductive RuleDoc := ruleDoc.

#[export] Instance rule_widget : Widget RuleDoc := {
  selection := fun _ => mkRange 0 1;
  textBetween := fun _ _ _ => [];
  replaceWith := fun _ _ _ _ => None;
  getHTML := fun _ => lit "<hr>";
  textBetweenThrows := fun _ _ _ => None
}.

(** A stream with chunks that carry no text around one that does. *)
Definition paddedItems : list (Item PlainDoc) :=
  [ Arrives (mkChunk []);
    Arrives (textChunk (lit "A"));
    Arrives (mkChunk [mkChoice None]);
    Arrives (textChunk (lit " fox"));
    Arrives (mkChunk [mkChoice (Some (mkDelta None))]) ].

(** The component while [summarize] awaits its first chunk on the fox
    document: the range is captured and the request is sent. *)
Definition awaiting : World PlainDoc :=
  requested summarizeInstruction (lit "Summarize this text: ") foxDoc
    (mounted foxDoc).

(** A stream in which the user cuts the document between two fragments. *)
Definition staleItems : list (Item PlainDoc) :=
  [Arrives (textChunk (lit "XYZ")); UserEdit cutAfterSix].

(** ** Properties *)

Unset Implicit Arguments.

Section Properties.

Context {E : Type} `{Widget E}.

(** *** The loop and the handlers, in closed form *)

Lemma replaceSelection_onFragment fragment acc (w : World E) :
  onFragment fragment (acc, w) =
  (acc ++ fragment, replaceSelection (acc ++ fragment) w).
Proof. reflexivity. Qed.

Lemma streaming_app (xs ys : list (Item E)) (p : jsstring * World E) :
  streaming (xs ++ ys) p = streaming ys (streaming xs p).
Proof. unfold streaming. apply fold_left_app. Qed.

(** The loop of the AI actions is the fold [streaming]; how the stream ends
    decides how the loop ends and nothing else. *)
Lemma forAwait_streaming (its : list (Item E)) (fin : Ending) :
  forall acc w,
    forAwaitItems its fin summarize_onChunk acc w =
    (match fin with
     | Exhausted => Normal (fst (streaming its (acc, w)))
     | Failed t => Throws t
     end, snd (streaming its (acc, w))).
Proof.
  induction its as [|it rest IH]; intros acc w.
  - destruct fin; reflexivity.
  - destruct it as [chunk|edit]; cbn [forAwaitItems].
    + unfold bind, summarize_onChunk.
      cbn [streaming fold_left].
      destruct (truthy (contentOf chunk)) eqn:Ht; cbn; rewrite IH;
        reflexivity.
    + unfold bind, modify. rewrite IH. reflexivity.
Qed.

Lemma summarize_try_opened (w : World E) (e : E) its fin :
  editor w = Some e ->
  truthy (textBetween e (from (selection e)) (to (selection e))) = true ->
  summarize_try (Opened (mkStream its fin)) w =
  (match fin with
   | Exhausted => Normal tt
   | Failed t => Throws t
   end,
   snd (streaming its
          ([], requested summarizeInstruction (lit "Summarize this text: ")
                 e w))).
Proof.
  intros He Hsel.
  unfold summarize_try, bind, modify, get. cbn.
  rewrite He. cbn.
  unfold getSelectedText. cbn. rewrite He. cbn. rewrite Hsel. cbn.
  unfold forAwait. cbn. rewrite forAwait_streaming.
  destruct fin; reflexivity.
Qed.

(** Unfolds a handler up to its loop, along the guard, the capture and the
    check of the selected text. *)
Ltac enter_handler w e He :=
  unfold run, bind, get, hasSelection, parameterizedAction;
  destruct (editor w) as [e|] eqn:He; [|reflexivity];
  destruct (negb (from (selection e) =? to (selection e))); [|reflexivity];
  destruct (isStreaming (state w)); [reflexivity|];
  cbn [negb orb andb];
  unfold tryCatchFinally, bind, modify, get; cbn;
  rewrite He; cbn;
  unfold getSelectedText; cbn; rewrite He; cbn;
  destruct (truthy (textBetween e (from (selection e)) (to (selection e))));
  cbn; [|reflexivity].

Ltac finish_handler resp :=
  destruct resp as [t|[its fin]]; cbn; [reflexivity|];
  unfold forAwait; cbn;
  change (fun (chunk : Chunk) (enhancedText : jsstring) =>
            if truthy (contentOf chunk)
            then bind (modify (replaceSelection (enhancedText ++ contentOf chunk)))
                      (fun _ => ret (enhancedText ++ contentOf chunk))
            else ret enhancedText)
    with summarize_onChunk;
  rewrite forAwait_streaming;
  destruct fin; reflexivity.

Lemma summarize_parameterized (resp : Response E) (w : World E) :
  run (summarize resp) w =
  parameterizedAction summarizeInstruction (lit "Summarize this text: ")
    resp w.
Proof.
  unfold summarize, summarize_try.
  enter_handler w e He. finish_handler resp.
Qed.

Lemma quickActions_parameterized (a : QuickAction) :
  In a quickActions ->
  exists systemInstruction promptWording,
    forall resp w,
      run (handler a resp) w =
      parameterizedAction systemInstruction promptWording resp w.
Proof.
  intros [<-|[<-|[<-|[]]]].
  - exists summarizeInstruction, (lit "Summarize this text: ").
    intros resp w. cbn [handler]. enter_handler w e He. finish_handler resp.
  - exists improveInstruction, (lit "Improve this text: ").
    intros resp w. cbn [handler]. enter_handler w e He. finish_handler resp.
  - exists completeInstruction, (lit "Complete this text naturally: ").
    intros resp w. cbn [handler]. enter_handler w e He. finish_handler resp.
Qed.

Lemma aiHandlers_parameterized (h : Response E -> Eff E unit) :
  In h aiHandlers ->
  exists systemInstruction promptWording,
    forall resp w,
      run (h resp) w =
      parameterizedAction systemInstruction promptWording resp w.
Proof.
  intros [<-|Hin].
  - exists summarizeInstruction, (lit "Summarize this text: ").
    apply summarize_parameterized.
  - apply in_map_iff in Hin. destruct Hin as (a & <- & Ha).
    apply quickActions_parameterized, Ha.
Qed.

(** *** What the loop keeps *)

Lemma streaming_preserves (P : World E -> Prop) :
  (forall t w, P w -> P (replaceSelection t w)) ->
  (forall edit w, P w -> P (userEdit edit w)) ->
  forall its acc w, P w -> P (snd (streaming its (acc, w))).
Proof.
  intros Hrep Hedit its.
  induction its as [|it rest IH]; intros acc w Hw; [exact Hw|].
  destruct it as [chunk|edit]; cbn [streaming fold_left].
  - destruct (truthy (contentOf chunk)).
    + apply IH, Hrep, Hw.
    + apply IH, Hw.
  - apply IH, Hedit, Hw.
Qed.

Lemma streaming_accumulates (its : list (Item E)) :
  forall acc w, fst (streaming its (acc, w)) = acc ++ accumulatedText its.
Proof.
  induction its as [|it rest IH]; intros acc w.
  - cbn. now rewrite app_nil_r.
  - destruct it as [chunk|edit]; cbn [streaming fold_left accumulatedText flat_map].
    + destruct (truthy (contentOf chunk)) eqn:Ht.
      * unfold onFragment. cbn [fst snd].
        change (fold_left _ rest ?p) with (streaming rest p).
        rewrite IH. now rewrite app_assoc.
      * change (fold_left _ rest ?p) with (streaming rest p).
        rewrite IH.
        destruct (contentOf chunk); [reflexivity|discriminate].
    + change (fold_left _ rest ?p) with (streaming rest p).
      cbn [fst snd]. rewrite IH. reflexivity.
Qed.

Lemma replaceSelection_selectionRange t (w : World E) :
  selectionRange (replaceSelection t w) = selectionRange w.
Proof.
  unfold replaceSelection.
  destruct (editor w), (selectionRange w) eqn:Hr; try congruence.
  destruct (replaceWith _ _ _ _); cbn; congruence.
Qed.

Lemma replaceSelection_editor t (w : World E) :
  editor w <> None -> editor (replaceSelection t w) <> None.
Proof.
  unfold replaceSelection. intros Hw.
  destruct (editor w) eqn:He; [|contradiction].
  destruct (selectionRange w); [|now rewrite He].
  destruct (replaceWith _ _ _ _); cbn; congruence.
Qed.

Lemma streaming_selectionRange its acc (w : World E) :
  selectionRange (snd (streaming its (acc, w))) = selectionRange w.
Proof.
  apply (streaming_preserves (fun x => selectionRange x = selectionRange w));
    [| |reflexivity].
  - intros t x Hx. now rewrite replaceSelection_selectionRange.
  - intros edit x Hx. exact Hx.
Qed.

Lemma streaming_editor its acc (w : World E) :
  editor w <> None -> editor (snd (streaming its (acc, w))) <> None.
Proof.
  apply (streaming_preserves (fun x => editor x <> None)).
  - intros t x. apply replaceSelection_editor.
  - intros edit x Hx. cbn. destruct (editor x); cbn; congruence.
Qed.

(** The wording of the requests plays no part in the loop. *)
Lemma streaming_forgetWording its :
  forall acc (w : World E),
    forgetWording (snd (streaming its (acc, w))) =
    snd (streaming its (acc, forgetWording w)).
Proof.
  induction its as [|it rest IH]; intros acc w; [reflexivity|].
  destruct it as [chunk|edit]; cbn [streaming fold_left];
    change (fold_left _ rest ?p) with (streaming rest p).
  - destruct (truthy (contentOf chunk)); [|apply IH].
    unfold onFragment. cbn [fst snd]. rewrite IH. f_equal. f_equal.
    cbn [forgetWording editor selectionRange state].
    destruct (editor w), (selectionRange w); try reflexivity.
    cbn. destruct (replaceWith _ _ _ _); reflexivity.
  - cbn [fst snd]. rewrite IH. reflexivity.
Qed.

Lemma forgetWording_toIdle (w : World E) :
  forgetWording (toIdle w) = toIdle (forgetWording w).
Proof. reflexivity. Qed.

Lemma forgetWording_recordFailure t (w : World E) :
  forgetWording (recordFailure t w) = recordFailure t (forgetWording w).
Proof. reflexivity. Qed.

Lemma forgetWording_log_request r (w : World E) :
  forgetWording (log_request r w) =
  log_request (forgetMessages r) (forgetWording w).
Proof.
  unfold forgetWording, log_request. cbn. now rewrite map_app.
Qed.

Lemma parameterizedAction_wording (s1 p1 s2 p2 : jsstring)
    (resp : Response E) (w : World E) :
  forgetWording (parameterizedAction s1 p1 resp w) =
  forgetWording (parameterizedAction s2 p2 resp w).
Proof.
  unfold parameterizedAction.
  destruct (editor w) as [e|]; [|reflexivity].
  destruct (_ && _); [|reflexivity].
  cbv zeta.
  destruct (truthy _); [|reflexivity].
  destruct resp as [t|[its [|t]]]; cbn [items ending];
    rewrite ?forgetWording_toIdle, ?forgetWording_recordFailure,
      ?streaming_forgetWording, ?forgetWording_log_request;
    reflexivity.
Qed.

(** *** One fragment *)

Lemma replaceSelection_step t (w : World E) e r :
  editor w = Some e ->
  selectionRange w = Some r ->
  replaceCalls (replaceSelection t w) =
    replaceCalls w
    ++ [mkCall (from r) (from r + insertedLength (state w)) t]
  /\ match replaceWith e (from r) (from r + insertedLength (state w)) t with
     | Some e' =>
         editor (replaceSelection t w) = Some e'
         /\ insertedLength (state (replaceSelection t w)) = length t
         /\ error (state (replaceSelection t w)) = error (state w)
     | None =>
         editor (replaceSelection t w) = Some e
         /\ insertedLength (state (replaceSelection t w)) =
             insertedLength (state w)
         /\ error (state (replaceSelection t w)) =
             Some (lit "Error replacing selection")
     end.
Proof.
  intros He Hr. unfold replaceSelection. rewrite He, Hr.
  destruct (replaceWith _ _ _ _); cbn; repeat split; assumption.
Qed.

Lemma streaming_snoc its chunk (p : jsstring * World E) :
  truthy (contentOf chunk) = true ->
  streaming (its ++ [Arrives chunk]) p =
  onFragment (contentOf chunk) (streaming its p).
Proof.
  intros Ht. rewrite streaming_app. cbn. now rewrite Ht.
Qed.

Lemma streaming_replaceCalls its :
  forall acc (w : World E),
    editor w <> None ->
    selectionRange w <> None ->
    exists calls,
      replaceCalls (snd (streaming its (acc, w))) = replaceCalls w ++ calls
      /\ length calls = textCount its.
Proof.
  induction its as [|it rest IH]; intros acc w He Hr.
  - exists []. split; [now rewrite app_nil_r|reflexivity].
  - destruct it as [chunk|edit]; cbn [streaming fold_left];
      change (fold_left _ rest ?p) with (streaming rest p);
      unfold textCount; cbn [filter].
    + destruct (truthy (contentOf chunk)).
      * rewrite replaceSelection_onFragment.
        destruct (editor w) as [e|] eqn:Hew; [|contradiction].
        destruct (selectionRange w) as [r|] eqn:Hrw; [|contradiction].
        destruct (replaceSelection_step (acc ++ contentOf chunk) w e r Hew Hrw)
          as (Hcalls & _).
        destruct (IH (acc ++ contentOf chunk)
                     (replaceSelection (acc ++ contentOf chunk) w))
          as (calls & Hc & Hn).
        { apply replaceSelection_editor. congruence. }
        { rewrite replaceSelection_selectionRange. congruence. }
        exists (mkCall (from r) (from r + insertedLength (state w))
                       (acc ++ contentOf chunk) :: calls).
        split.
        -- etransitivity; [exact Hc|].
           rewrite Hcalls, <- app_assoc. reflexivity.
        -- cbn. f_equal. exact Hn.
      * apply IH; assumption.
    + destruct (IH acc (userEdit edit w)) as (calls & Hc & Hn).
      { cbn. destruct (editor w); cbn; congruence. }
      { assumption. }
      exists calls. split; [exact Hc|exact Hn].
Qed.

Lemma streaming_replace_error its acc (w : World E) :
  error (state w) = Some (lit "Error replacing selection") ->
  error (state (snd (streaming its (acc, w)))) =
  Some (lit "Error replacing selection").
Proof.
  apply (streaming_preserves
    (fun x => error (state x) = Some (lit "Error replacing selection"))).
  - intros t x Hx. unfold replaceSelection.
    destruct (editor x), (selectionRange x); try assumption.
    destruct (replaceWith _ _ _ _); cbn; [assumption|reflexivity].
  - intros edit x Hx. exact Hx.
Qed.

(** The state in which [summarize] meets a fragment: the widget is there
    and the captured range is the selection at the trigger. *)
Lemma summarize_try_streaming (w0 : World E) (e0 : E) its :
  editor w0 = Some e0 ->
  truthy (textBetween e0 (from (selection e0)) (to (selection e0))) = true ->
  let p := streaming its
             ([], requested summarizeInstruction (lit "Summarize this text: ")
                    e0 w0) in
  snd (summarize_try (Opened (mkStream its Exhausted)) w0) = snd p
  /\ fst p = accumulatedText its
  /\ editor (snd p) <> None
  /\ selectionRange (snd p) =
      Some (mkRange (from (selection e0)) (to (selection e0))).
Proof.
  intros He Hsel p. subst p.
  rewrite (summarize_try_opened w0 e0 its Exhausted He Hsel).
  repeat split.
  - now rewrite streaming_accumulates.
  - apply streaming_editor. cbn. congruence.
  - now rewrite streaming_selectionRange.
Qed.

(** C1, as amended. In every run of [summarize], each chunk that carries
    text extends the accumulated text and asks the widget to replace the
    window [start, start + insertedLength) by the accumulated text, where
    [start] is the start of the selection at the trigger.  When the widget
    accepts, the document is the result and [insertedLength] is the length
    of the accumulated text; when it refuses, the document and
    [insertedLength] stay as they were and the error is recorded. *)
Theorem C1_fragment_replaces_window_when_accepted
    (w0 : World E) (e0 : E) (pre : list (Item E)) (chunk : Chunk) :
  editor w0 = Some e0 ->
  truthy (textBetween e0 (from (selection e0)) (to (selection e0))) = true ->
  truthy (contentOf chunk) = true ->
  let before := snd (summarize_try (Opened (mkStream pre Exhausted)) w0) in
  let after :=
    snd (summarize_try
           (Opened (mkStream (pre ++ [Arrives chunk]) Exhausted)) w0) in
  let accumulated := accumulatedText pre ++ contentOf chunk in
  let start := from (selection e0) in
  exists e,
    editor before = Some e
    /\ replaceCalls after =
        replaceCalls before
        ++ [mkCall start (start + insertedLength (state before)) accumulated]
    /\ match replaceWith e start (start + insertedLength (state before))
               accumulated with
       | Some e' =>
           editor after = Some e'
           /\ insertedLength (state after) = length accumulated
           /\ error (state after) = error (state before)
       | None =>
           editor after = Some e
           /\ insertedLength (state after) = insertedLength (state before)
           /\ error (state after) = Some (lit "Error replacing selection")
       end.
Proof.
  intros He Hsel Ht before after accumulated start.
  destruct (summarize_try_streaming w0 e0 pre He Hsel)
    as (Hbefore & Hacc & Hed & Hrange).
  destruct (summarize_try_streaming w0 e0 (pre ++ [Arrives chunk]) He Hsel)
    as (Hafter & _).
  subst before after accumulated start.
  rewrite Hbefore, Hafter, (streaming_snoc _ _ _ Ht).
  destruct (streaming pre _) as [acc wp]. cbn [fst snd] in *. subst acc.
  rewrite replaceSelection_onFragment. cbn [snd].
  destruct (editor wp) as [e|] eqn:Hev; [|contradiction].
  exists e. split; [reflexivity|].
  exact (replaceSelection_step _ _ e _ Hev Hrange).
Qed.

(** C5. When the widget refuses the replacement of one fragment, the error
    is recorded and logged, the loop goes on to its normal end, each later
    chunk that carries text asks for a replacement again, and the recorded
    error is still there when the stream is exhausted. *)
Theorem C5_refused_replacement_does_not_stop_the_stream
    (w0 : World E) (e0 : E) (pre post : list (Item E)) (chunk : Chunk) :
  editor w0 = Some e0 ->
  truthy (textBetween e0 (from (selection e0)) (to (selection e0))) = true ->
  truthy (contentOf chunk) = true ->
  (forall e,
      editor (snd (summarize_try (Opened (mkStream pre Exhausted)) w0))
        = Some e ->
      replaceWith e (from (selection e0))
        (from (selection e0)
         + insertedLength
             (state (snd (summarize_try (Opened (mkStream pre Exhausted)) w0))))
        (accumulatedText pre ++ contentOf chunk) = None) ->
  let failed :=
    snd (summarize_try
           (Opened (mkStream (pre ++ [Arrives chunk]) Exhausted)) w0) in
  let done :=
    summarize_try
      (Opened (mkStream ((pre ++ [Arrives chunk]) ++ post) Exhausted)) w0 in
  error (state failed) = Some (lit "Error replacing selection")
  /\ In (lit "Error replacing selection:") (console failed)
  /\ fst done = Normal tt
  /\ (exists calls,
        replaceCalls (snd done) = replaceCalls failed ++ calls
        /\ length calls = textCount post)
  /\ error (state (snd done)) = Some (lit "Error replacing selection").
Proof.
  intros He Hsel Ht Hrefused failed done.
  destruct (summarize_try_streaming w0 e0 pre He Hsel)
    as (Hbefore & Hacc & Hed & Hrange).
  destruct (summarize_try_streaming w0 e0 (pre ++ [Arrives chunk]) He Hsel)
    as (Hfailed & _ & Hed' & Hrange').
  assert (Herr : error (state failed) = Some (lit "Error replacing selection")
                 /\ In (lit "Error replacing selection:") (console failed)).
  { subst failed. rewrite Hfailed, (streaming_snoc _ _ _ Ht).
    rewrite Hbefore in Hrefused.
    destruct (streaming pre _) as [acc wp]. cbn [fst snd] in *. subst acc.
    rewrite replaceSelection_onFragment. cbn [snd].
    destruct (editor wp) as [e|] eqn:Hev; [|contradiction].
    specialize (Hrefused e eq_refl).
    unfold replaceSelection. rewrite Hev, Hrange. cbn [from].
    rewrite Hrefused. cbn. split; [reflexivity|].
    apply in_or_app. right. left. reflexivity. }
  destruct Herr as (Herr & Hlog).
  subst done.
  rewrite (summarize_try_opened w0 e0 _ Exhausted He Hsel).
  cbn [fst snd]. rewrite streaming_app.
  subst failed. rewrite Hfailed in *.
  destruct (streaming (pre ++ [Arrives chunk]) _) as [acc wf] eqn:Hp.
  cbn [snd] in *.
  repeat split; try assumption.
  - apply streaming_replaceCalls; [assumption|congruence].
  - apply streaming_replace_error, Herr.
Qed.

(** *** Guards of the AI actions *)

Lemma parameterizedAction_guard s p resp (w : World E) :
  negb (hasSelection w) || isStreaming (state w) = true ->
  parameterizedAction s p resp w = w.
Proof.
  unfold parameterizedAction, hasSelection.
  destruct (editor w) as [e|]; [|reflexivity].
  intros Hg. destruct (negb (from (selection e) =? to (selection e)));
    [|reflexivity].
  cbn in Hg. now rewrite Hg.
Qed.

(** C3. While an AI action is active ([isStreaming] is true), triggering
    summarize or any of the quick actions does nothing: the component is
    left as it was, and so is the list of requests sent. *)
Theorem C3_trigger_while_active_is_noop
    (h : Response E -> Eff E unit) (resp : Response E) (w : World E) :
  In h aiHandlers ->
  isStreaming (state w) = true ->
  run (h resp) w = w /\ requests (run (h resp) w) = requests w.
Proof.
  intros Hh Hactive.
  destruct (aiHandlers_parameterized h Hh) as (s & p & Heq).
  rewrite Heq, parameterizedAction_guard; [split; reflexivity|].
  rewrite Hactive. apply orb_true_r.
Qed.

(** C4. With an empty selection (its start equals its end), triggering
    summarize or any of the quick actions does nothing: no request is
    sent, the streaming state, its error included, is left as it was. *)
Theorem C4_empty_selection_is_noop
    (h : Response E -> Eff E unit) (resp : Response E) (w : World E) :
  In h aiHandlers ->
  (forall e, editor w = Some e -> from (selection e) = to (selection e)) ->
  run (h resp) w = w
  /\ requests (run (h resp) w) = requests w
  /\ state (run (h resp) w) = state w.
Proof.
  intros Hh Hempty.
  destruct (aiHandlers_parameterized h Hh) as (s & p & Heq).
  rewrite Heq, parameterizedAction_guard; [repeat split; reflexivity|].
  unfold hasSelection. destruct (editor w) as [e|]; [|reflexivity].
  rewrite (Hempty e eq_refl), Nat.eqb_refl. reflexivity.
Qed.

(** C6. An AI action that starts ends idle, however the response ends:
    [isStreaming] is false, the captured range is cleared and
    [insertedLength] is 0.  When the stream throws after some items, the
    document and the replacements made are those of the same items
    followed by a normal end, and the error holds the message of the
    failure. *)
Theorem C6_every_operation_returns_to_idle
    (h : Response E -> Eff E unit) (w : World E) :
  In h aiHandlers ->
  hasSelection w = true ->
  isStreaming (state w) = false ->
  (forall resp,
      isStreaming (state (run (h resp) w)) = false
      /\ selectionRange (run (h resp) w) = None
      /\ insertedLength (state (run (h resp) w)) = 0)
  /\ (forall e its t,
        editor w = Some e ->
        truthy (textBetween e (from (selection e)) (to (selection e))) = true ->
        editor (run (h (Opened (mkStream its (Failed t)))) w) =
          editor (run (h (Opened (mkStream its Exhausted))) w)
        /\ replaceCalls (run (h (Opened (mkStream its (Failed t)))) w) =
            replaceCalls (run (h (Opened (mkStream its Exhausted))) w)
        /\ error (state (run (h (Opened (mkStream its (Failed t)))) w)) =
            Some (messageOf t)).
Proof.
  intros Hh Hsel Hidle.
  destruct (aiHandlers_parameterized h Hh) as (s & p & Heq).
  unfold hasSelection in Hsel.
  split.
  - intros resp. rewrite Heq. unfold parameterizedAction.
    destruct (editor w) as [e|]; [|discriminate].
    rewrite Hsel, Hidle. cbn [negb andb]. cbv zeta.
    destruct (truthy _); [|repeat split].
    destruct resp as [t|[its [|t]]]; repeat split.
  - intros e its t He Htext. rewrite !Heq. unfold parameterizedAction.
    rewrite He in *. rewrite Hsel, Hidle. cbn [negb andb]. cbv zeta.
    rewrite Htext. repeat split.
Qed.

(** C7. A call of the completion client sends one request and changes
    nothing else; the request holds the messages given, stream = true and
    the same model, temperature and token limit whatever the messages and
    the component are. *)
Theorem C7_client_sends_one_fixed_request
    (resp : Response E) (msgs : list Message) (w : World E) :
  snd (getGroqChatCompletion resp msgs w) =
    log_request
      (mkRequest msgs (lit "llama3-8b-8192") true (7 # 10) 1024) w
  /\ requests (snd (getGroqChatCompletion resp msgs w)) =
      requests w
      ++ [mkRequest msgs (lit "llama3-8b-8192") true (7 # 10) 1024].
Proof.
  unfold getGroqChatCompletion, bind, modify.
  destruct resp; split; reflexivity.
Qed.

(** C9. The three quick actions are one operation up to wording: each is
    the parameterized operation at its own system instruction and prompt
    wording, and any two of them, run on the same component and the same
    response, end in the same component once the wording of the requests
    is left out: same streaming state, same document, same replacements,
    same number and shape of requests. *)
Theorem C9_quick_actions_differ_in_wording_only
    (a b : QuickAction) (resp : Response E) (w : World E) :
  In a quickActions ->
  In b quickActions ->
  forgetWording (run (handler a resp) w) =
    forgetWording (run (handler b resp) w)
  /\ exists systemInstruction promptWording,
      forall resp' w',
        run (handler a resp') w' =
        parameterizedAction systemInstruction promptWording resp' w'.
Proof.
  intros Ha Hb.
  destruct (quickActions_parameterized a Ha) as (sa & pa & Heqa).
  destruct (quickActions_parameterized b Hb) as (sb & pb & Heqb).
  split.
  - rewrite Heqa, Heqb. apply parameterizedAction_wording.
  - exists sa, pa. exact Heqa.
Qed.

End Properties.

(** *** Runs on the plain-text widget with no edit in between *)

Lemma truthy_length (s : jsstring) : truthy s = true <-> 0 < length s.
Proof. destruct s; cbn; split; intros; try lia; congruence. Qed.

Lemma mapPos_insert_start (a n : nat) : mapPos a a n a = a + n.
Proof.
  unfold mapPos. rewrite Nat.ltb_irrefl, Nat.leb_refl, Nat.sub_diag.
  reflexivity.
Qed.

Lemma mapPos_after (a b n p : nat) :
  b < p -> a <= b -> mapPos a b n p = p - (b - a) + n.
Proof.
  intros Hp Hab. unfold mapPos.
  destruct (Nat.ltb_spec p a); [lia|].
  destruct (Nat.leb_spec p b); [lia|reflexivity].
Qed.

Lemma mapPos_window_end (a m n : nat) :
  0 < m -> mapPos a (a + m) n (a + m) = a + n.
Proof.
  intros Hm. unfold mapPos.
  destruct (Nat.ltb_spec (a + m) a); [lia|].
  rewrite Nat.leb_refl.
  destruct (Nat.eqb_spec (a + m - a) 0); [lia|].
  destruct (Nat.eqb_spec (a + m) a); [lia|reflexivity].
Qed.

(** Writing the next accumulated text over the window is accepted and
    leaves the original document with that text put in. *)
Lemma plain_replace_inserted (d : PlainDoc) (acc acc' : jsstring) :
  from (sel d) < to (sel d) ->
  to (sel d) <= length (text d) ->
  truthy acc' = true ->
  plain_replaceWith (inserted d acc) (from (sel d))
    (from (sel d) + length acc) acc' = Some (inserted d acc').
Proof.
  intros Hab Hb Hacc'.
  destruct d as [t [a b]]. cbn [sel text from to] in *.
  unfold inserted, plain_replaceWith. cbn [sel text from to].
  rewrite Hacc'.
  destruct acc as [|c acc]; cbn [truthy length text sel from to].
  - rewrite Nat.add_0_r, Nat.leb_refl.
    destruct (Nat.leb_spec a (length t)); [|lia].
    destruct (Nat.leb_spec a (length t + 1)); [|lia].
    cbn [andb]. rewrite mapPos_insert_start.
    rewrite mapPos_after by lia.
    do 3 f_equal. lia.
  - set (m := S (length acc)).
    assert (Hlen : length (firstn a t) = a) by (apply firstn_length_le; lia).
    assert (HT : length (firstn a t ++ (c :: acc) ++ skipn a t)
                 = m + length t).
    { rewrite !length_app, Hlen, length_skipn. cbn [length]. fold m. lia. }
    rewrite HT.
    destruct (Nat.leb_spec a (a + m)); [|lia].
    destruct (Nat.leb_spec a (m + length t)); [|lia].
    destruct (Nat.leb_spec (a + m) (m + length t + 1)); [|lia].
    cbn [andb].
    rewrite mapPos_window_end by (unfold m; lia).
    rewrite mapPos_after by lia.
    f_equal. f_equal.
    + rewrite firstn_app, Hlen, Nat.sub_diag, firstn_O, app_nil_r.
      rewrite firstn_all2 by lia.
      apply (f_equal (fun x => firstn a t ++ acc' ++ x)).
      rewrite skipn_app, Hlen.
      rewrite (skipn_all2 (firstn a t)) by lia.
      rewrite app_nil_l.
      replace (a + m - a) with m by lia.
      rewrite skipn_app.
      rewrite (skipn_all2 (c :: acc)) by (cbn [length]; unfold m; lia).
      cbn [length]. fold m. rewrite Nat.sub_diag. reflexivity.
    + f_equal; lia.
Qed.

Lemma inserted_text (d : PlainDoc) (t : jsstring) :
  text (inserted d t) =
  firstn (from (sel d)) (text d) ++ t ++ skipn (from (sel d)) (text d).
Proof.
  unfold inserted. destruct t; cbn [truthy text app].
  - now rewrite firstn_skipn.
  - reflexivity.
Qed.

Lemma inserted_window (d : PlainDoc) (t : jsstring) :
  from (sel d) <= length (text d) ->
  plain_textBetween (inserted d t) (from (sel d)) (from (sel d) + length t) = t.
Proof.
  intros Ha. unfold plain_textBetween. rewrite inserted_text.
  assert (Hlen : length (firstn (from (sel d)) (text d)) = from (sel d))
    by (apply firstn_length_le; exact Ha).
  rewrite skipn_app, Hlen, Nat.sub_diag.
  rewrite skipn_all2 by lia.
  cbn [skipn app].
  replace (from (sel d) + length t - from (sel d)) with (length t) by lia.
  rewrite firstn_app, Nat.sub_diag, firstn_O, app_nil_r.
  apply firstn_all.
Qed.

Lemma quiet_streaming (d : PlainDoc) (chunks : list Chunk) :
  from (sel d) < to (sel d) ->
  to (sel d) <= length (text d) ->
  forall acc (w : World PlainDoc) r,
    editor w = Some (inserted d acc) ->
    selectionRange w = Some r ->
    from r = from (sel d) ->
    insertedLength (state w) = length acc ->
    editor (snd (streaming (map Arrives chunks) (acc, w))) =
      Some (inserted d (acc ++ flat_map contentOf chunks))
    /\ state (snd (streaming (map Arrives chunks) (acc, w))) =
       mkState (isStreaming (state w)) (error (state w))
               (length (acc ++ flat_map contentOf chunks)).
Proof.
  intros Hab Hb.
  induction chunks as [|chunk rest IH]; intros acc w r He Hr Hfrom Hlen.
  - cbn. rewrite app_nil_r. split; [exact He|].
    rewrite <- Hlen. now destruct (state w).
  - cbn [map streaming fold_left flat_map].
    change (fold_left _ (map Arrives rest) ?p)
      with (streaming (map Arrives rest) p).
    destruct (truthy (contentOf chunk)) eqn:Ht.
    + rewrite replaceSelection_onFragment, app_assoc.
      assert (Hacc : truthy (acc ++ contentOf chunk) = true).
      { apply truthy_length. rewrite length_app.
        apply truthy_length in Ht. lia. }
      assert (Hstep :
        replaceSelection (acc ++ contentOf chunk) w =
        set_insertedLength (length (acc ++ contentOf chunk))
          (set_editor (Some (inserted d (acc ++ contentOf chunk)))
             (log_replaceCall
                (mkCall (from r) (from r + insertedLength (state w))
                        (acc ++ contentOf chunk)) w))).
      { unfold replaceSelection. rewrite He, Hr.
        cbn [replaceWith plain_widget]. rewrite Hfrom, Hlen.
        now rewrite (plain_replace_inserted d acc _ Hab Hb Hacc). }
      rewrite Hstep.
      match goal with
      | |- context [streaming _ (_, ?x)] =>
          destruct (IH (acc ++ contentOf chunk) x r) as (Hed & Hst);
            [reflexivity|exact Hr|exact Hfrom|reflexivity|]
      end.
      split; [exact Hed|etransitivity; [exact Hst|reflexivity]].
    + destruct (contentOf chunk); [|discriminate].
      cbn [app]. apply (IH _ _ r); assumption.
Qed.

(** A run of [summarize] with no edit in between, in closed form. *)
Lemma summarize_quiet (d0 : PlainDoc) (w : World PlainDoc)
    (chunks : list Chunk) :
  editor w = Some d0 ->
  isStreaming (state w) = false ->
  from (sel d0) < to (sel d0) ->
  to (sel d0) <= length (text d0) ->
  editor (run (summarize (quiet chunks)) w) =
    Some (inserted d0 (flat_map contentOf chunks))
  /\ state (run (summarize (quiet chunks)) w) = mkState false None 0.
Proof.
  intros He Hidle Hab Hb.
  rewrite summarize_parameterized.
  unfold parameterizedAction, quiet. rewrite He, Hidle.
  cbn [selection plain_widget textBetween].
  destruct (Nat.eqb_spec (from (sel d0)) (to (sel d0))); [lia|].
  cbn [negb andb]. cbv zeta.
  assert (Htext : truthy (plain_textBetween d0 (from (sel d0)) (to (sel d0)))
                  = true).
  { apply truthy_length. unfold plain_textBetween.
    rewrite length_firstn, length_skipn. lia. }
  rewrite Htext. cbn [items ending].
  destruct (quiet_streaming d0 chunks Hab Hb []
              (requested summarizeInstruction (lit "Summarize this text: ")
                 d0 w)
              (mkRange (from (sel d0)) (to (sel d0))))
    as (Hed & Hst); try reflexivity.
  { cbn. exact He. }
  split.
  - exact Hed.
  - apply (f_equal (fun s => mkState false (error s) 0)) in Hst.
    exact Hst.
Qed.

(** X14. The text goes in front of the selected text: the first window is
    empty, and what was selected stays in the document after it. *)
Remark summarize_keeps_selected_text (d0 : PlainDoc) (w : World PlainDoc)
    (chunks : list Chunk) :
  editor w = Some d0 ->
  isStreaming (state w) = false ->
  from (sel d0) < to (sel d0) ->
  to (sel d0) <= length (text d0) ->
  option_map text (editor (run (summarize (quiet chunks)) w)) =
  Some (firstn (from (sel d0)) (text d0)
        ++ flat_map contentOf chunks
        ++ skipn (from (sel d0)) (text d0)).
Proof.
  intros He Hidle Hab Hb.
  destruct (summarize_quiet d0 w chunks He Hidle Hab Hb) as (Hed & _).
  rewrite Hed. cbn [option_map]. now rewrite inserted_text.
Qed.

(** How the text is split does not matter.  On the plain-text widget,
    with a selection that is not empty and a stream of chunks with no edit
    in between, [summarize] leaves the concatenation of the fragments in
    the window that starts at the start of the selection, with no
    replacement refused; two streams whose fragments concatenate to the
    same text leave the same document and the same streaming state. *)
Lemma quiet_window_holds_the_concatenation
    (d0 : PlainDoc) (w : World PlainDoc) (chunks chunks' : list Chunk) :
  editor w = Some d0 ->
  isStreaming (state w) = false ->
  from (sel d0) < to (sel d0) ->
  to (sel d0) <= length (text d0) ->
  (exists d,
      editor (run (summarize (quiet chunks)) w) = Some d
      /\ textBetween d (from (sel d0))
           (from (sel d0) + length (flat_map contentOf chunks)) =
         flat_map contentOf chunks
      /\ error (state (run (summarize (quiet chunks)) w)) = None)
  /\ (flat_map contentOf chunks' = flat_map contentOf chunks ->
      editor (run (summarize (quiet chunks')) w) =
        editor (run (summarize (quiet chunks)) w)
      /\ state (run (summarize (quiet chunks')) w) =
         state (run (summarize (quiet chunks)) w)).
Proof.
  intros He Hidle Hab Hb.
  destruct (summarize_quiet d0 w chunks He Hidle Hab Hb) as (Hed & Hst).
  destruct (summarize_quiet d0 w chunks' He Hidle Hab Hb) as (Hed' & Hst').
  split.
  - exists (inserted d0 (flat_map contentOf chunks)).
    split; [exact Hed|]. split.
    + apply inserted_window. lia.
    + rewrite Hst. reflexivity.
  - intros Hsame.
    rewrite Hed, Hed', Hst, Hst', Hsame. split; reflexivity.
Qed.

(** *** Chat send *)

Section Chat.

Context {E : Type} `{Widget E}.

Lemma orElse_nil (s : jsstring) : orElse s [] = s.
Proof. now destruct s. Qed.

(** The loop of a chat send gathers the text and leaves the component to
    the user's edits. *)
Lemma forAwait_gathers (its : list (Item E)) (fin : Ending)
    (body : Chunk -> jsstring -> Eff E jsstring) :
  (forall chunk response w,
      body chunk response w = (Normal (response ++ contentOf chunk), w)) ->
  forall acc (w : World E),
    forAwaitItems its fin body acc w =
    (match fin with
     | Exhausted => Normal (acc ++ accumulatedText its)
     | Failed t => Throws t
     end, applyEdits its w).
Proof.
  intros Hbody.
  induction its as [|it rest IH]; intros acc w.
  - destruct fin; cbn; now rewrite ?app_nil_r.
  - destruct it as [chunk|edit];
      cbn [forAwaitItems accumulatedText flat_map applyEdits fold_left];
      change (fold_left _ rest ?x) with (applyEdits rest x);
      unfold bind.
    + rewrite Hbody, IH. now rewrite app_assoc.
    + unfold modify. rewrite IH. reflexivity.
Qed.

Lemma sendMessage_closed (resp : Response E) (text : jsstring)
    (selectedText : option jsstring) (w : World E) :
  truthy (trim text) = true ->
  run (sendMessage resp text selectedText) w =
  set_newMessage []
    (set_isChatLoading false
       match readingThrows selectedText w with
       | Some _ =>
           log_console (lit "Chat error:")
             (push_chatMessage (mkMessage user text)
                (set_isChatLoading true w))
       | None =>
           match resp with
           | Rejected t =>
               log_console (lit "Chat error:") (chatSent text selectedText w)
           | Opened s =>
               match ending s with
               | Exhausted =>
                   push_chatMessage
                     (mkMessage assistant (accumulatedText (items s)))
                     (applyEdits (items s) (chatSent text selectedText w))
               | Failed t =>
                   log_console (lit "Chat error:")
                     (applyEdits (items s) (chatSent text selectedText w))
               end
           end
       end).
Proof.
  intros Htext. unfold run, sendMessage. rewrite Htext. cbn [negb].
  unfold readingThrows, chatSent, selectionInUse, orElse, exported.
  unfold getGroqChatCompletion, forAwait, getSelectedText_call.
  unfold tryCatchFinally, bind, modify, get, ret, throw.
  unfold getSelectedText_throws, getSelectedText.
  destruct w as [ed st sr cm nm icl rq rc co].
  cbv beta iota zeta
      delta [editor selectionRange push_chatMessage set_isChatLoading
             state chatMessages newMessage isChatLoading requests
             replaceCalls console log_request log_console set_newMessage].
  assert (Hexp : forall x : jsstring, (if truthy x then x else []) = x)
    by (now destruct x).
  rewrite Hexp.
  assert (Hloop : forall its fin (x : World E),
    forAwaitItems its fin
      (fun chunk response =>
         if truthy (contentOf chunk)
         then fun w0 : World E => (Normal (response ++ contentOf chunk), w0)
         else fun w0 : World E => (Normal response, w0)) [] x =
    (match fin with
     | Exhausted => Normal (accumulatedText its)
     | Failed t => Throws t
     end, applyEdits its x)).
  { intros its fin x. rewrite forAwait_gathers; [reflexivity|].
    intros chunk response y.
    destruct (contentOf chunk); cbn; now rewrite ?app_nil_r. }
  destruct (truthy match selectedText with
                   | Some s => s
                   | None => []
                   end).
  - destruct resp as [t|[its fin]]; cbn [items ending snd fst];
      [reflexivity|].
    rewrite Hloop. destruct fin; reflexivity.
  - destruct ed as [e|]; [destruct sr as [r|]|].
    + destruct (textBetweenThrows e (from r) (to r)); [reflexivity|].
      destruct resp as [t|[its fin]]; cbn [items ending snd fst];
        [reflexivity|].
      rewrite Hloop. destruct fin; reflexivity.
    + destruct resp as [t|[its fin]]; cbn [items ending snd fst];
        [reflexivity|].
      rewrite Hloop. destruct fin; reflexivity.
    + destruct resp as [t|[its fin]]; cbn [items ending snd fst];
        [reflexivity|].
      rewrite Hloop. destruct fin; reflexivity.
Qed.

Lemma applyEdits_chatMessages its (w : World E) :
  chatMessages (applyEdits its w) = chatMessages w.
Proof.
  revert w. induction its as [|[chunk|edit] rest IH]; intros w; cbn;
    [reflexivity|apply IH|].
  change (fold_left _ rest ?x) with (applyEdits rest x).
  now rewrite IH.
Qed.

Lemma applyEdits_requests its (w : World E) :
  requests (applyEdits its w) = requests w.
Proof.
  revert w. induction its as [|[chunk|edit] rest IH]; intros w; cbn;
    [reflexivity|apply IH|].
  change (fold_left _ rest ?x) with (applyEdits rest x).
  now rewrite IH.
Qed.


(** C10. When the response of a chat send with non-blank text fails, at
    the request or anywhere in the stream, the transcript has grown by the
    user message and by nothing else, and the loading flag is false. *)
Theorem C10_failed_chat_keeps_user_message
    (resp : Response E) (text : jsstring) (selectedText : option jsstring)
    (w : World E) :
  truthy (trim text) = true ->
  fails resp ->
  chatMessages (run (sendMessage resp text selectedText) w) =
    chatMessages w ++ [mkMessage user text]
  /\ isChatLoading (run (sendMessage resp text selectedText) w) = false.
Proof.
  intros Htext Hfails. rewrite (sendMessage_closed _ _ _ _ Htext).
  destruct (readingThrows selectedText w) as [thrown|];
    [split; reflexivity|].
  destruct resp as [t|[its [|t]]]; cbn in Hfails; [|contradiction|];
    cbn [ending items]; split; try reflexivity;
    cbn [set_newMessage set_isChatLoading log_console chatMessages];
    rewrite ?applyEdits_chatMessages; reflexivity.
Qed.

End Chat.

(** ** The statements on sample runs *)

(** The scenario of the specification: the summary is written in front of
    the selected sentence, which stays in the document. *)
Example summarize_fox_scenario :
  option_map text
    (editor (run (summarize (fragments [lit "A"; lit " fox"; lit " runs."]))
                 (mounted foxDoc))) =
  Some (lit "Say: A fox runs.The quick brown fox. End").
Proof. vm_compute. reflexivity. Qed.

Example summarize_fox_calls :
  map (fun c => (callFrom c, callTo c))
    (replaceCalls
       (run (summarize (fragments [lit "A"; lit " fox"; lit " runs."]))
            (mounted foxDoc))) =
  [(5, 5); (5, 6); (5, 10)].
Proof. vm_compute. reflexivity. Qed.

Example trim_blank : trim (lit "  ") = [].
Proof. reflexivity. Qed.

(** C2. The code does not replace the selection.  On the scenario of the
    specification (the sentence "The quick brown fox." selected, the
    fragments "A", " fox" and " runs." received in order) [summarize]
    writes the fragments in front of the selected sentence, because the
    first window, [start, start + 0), is empty, and never removes the
    sentence: the document ends as "Say: A fox runs.The quick brown fox.
    End", not as "Say: A fox runs. End", and the captured range holds "A
    fox runs.The quick" and not the concatenation of the fragments.  The
    same holds when the text comes as one fragment. *)
Theorem C2_fragments_do_not_replace_the_selection :
  hasSelection (mounted foxDoc) = true
  /\ selection foxDoc = mkRange 5 25
  /\ textBetween foxDoc 5 25 = lit "The quick brown fox."
  /\ option_map text
       (editor (run (summarize (fragments [lit "A"; lit " fox"; lit " runs."]))
                    (mounted foxDoc))) =
     Some (lit "Say: A fox runs.The quick brown fox. End")
  /\ option_map (fun d => textBetween d 5 25)
       (editor (run (summarize (fragments [lit "A"; lit " fox"; lit " runs."]))
                    (mounted foxDoc))) =
     Some (lit "A fox runs.The quick")
  /\ option_map text
       (editor (run (summarize (fragments [lit "A"; lit " fox"; lit " runs."]))
                    (mounted foxDoc))) <>
     Some (lit "Say: A fox runs. End")
  /\ option_map text
       (editor (run (summarize (fragments [lit "A fox runs."]))
                    (mounted foxDoc))) =
     Some (lit "Say: A fox runs.The quick brown fox. End").
Proof.
  vm_compute. repeat split; try reflexivity. discriminate.
Qed.

(** C1 fails as stated: the user cuts the document between two fragments,
    the window of the second fragment no longer lies in the document, the
    replacement is refused, the document is not touched and
    [insertedLength] is 3 while the accumulated text has 4 units. *)
Lemma C1_counterexample :
  hasSelection (mounted foxDoc) = true
  /\ isStreaming (state (mounted foxDoc)) = false
  /\ truthy (contentOf (textChunk (lit "W"))) = true
  /\ accumulatedText staleItems ++ contentOf (textChunk (lit "W"))
     = lit "XYZW"
  /\ option_map text
       (editor
          (snd (summarize_try
                  (Opened (mkStream (staleItems ++ [Arrives (textChunk (lit "W"))])
                                    Exhausted))
                  (mounted foxDoc)))) = Some (lit "Say: X")
  /\ insertedLength
       (state
          (snd (summarize_try
                  (Opened (mkStream (staleItems ++ [Arrives (textChunk (lit "W"))])
                                    Exhausted))
                  (mounted foxDoc))))
     <> length (accumulatedText staleItems ++ contentOf (textChunk (lit "W"))).
Proof.
  vm_compute. repeat split; try reflexivity. discriminate.
Qed.

Lemma C1_witness :
  editor (mounted foxDoc) = Some foxDoc
  /\ truthy (textBetween foxDoc (from (selection foxDoc))
               (to (selection foxDoc))) = true
  /\ truthy (contentOf (textChunk (lit " fox"))) = true
  /\ (let before :=
        snd (summarize_try (Opened (mkStream firstItems Exhausted))
                           (mounted foxDoc)) in
      let after :=
        snd (summarize_try
               (Opened (mkStream (firstItems ++ [Arrives (textChunk (lit " fox"))])
                                 Exhausted))
               (mounted foxDoc)) in
      let accumulated :=
        accumulatedText firstItems ++ contentOf (textChunk (lit " fox")) in
      let start := from (selection foxDoc) in
      exists e,
        editor before = Some e
        /\ replaceCalls after =
            replaceCalls before
            ++ [mkCall start (start + insertedLength (state before))
                       accumulated]
        /\ match replaceWith e start (start + insertedLength (state before))
                   accumulated with
           | Some e' =>
               editor after = Some e'
               /\ insertedLength (state after) = length accumulated
               /\ error (state after) = error (state before)
           | None =>
               editor after = Some e
               /\ insertedLength (state after) =
                   insertedLength (state before)
               /\ error (state after) =
                   Some (lit "Error replacing selection")
           end).
Proof.
  split; [reflexivity|]. split; [reflexivity|]. split; [reflexivity|].
  apply (C1_fragment_replaces_window_when_accepted
           (mounted foxDoc) foxDoc firstItems (textChunk (lit " fox")));
    reflexivity.
Defined.

Lemma quiet_window_holds_the_concatenation_on_hello_world :
  editor (mounted foxDoc) = Some foxDoc
  /\ isStreaming (state (mounted foxDoc)) = false
  /\ from (sel foxDoc) < to (sel foxDoc)
  /\ to (sel foxDoc) <= length (text foxDoc)
  /\ ((exists d,
         editor (run (summarize
                        (quiet [textChunk (lit "Hello "); textChunk (lit "world")]))
                     (mounted foxDoc)) = Some d
         /\ textBetween d (from (sel foxDoc))
              (from (sel foxDoc)
               + length (flat_map contentOf
                           [textChunk (lit "Hello "); textChunk (lit "world")])) =
            flat_map contentOf
              [textChunk (lit "Hello "); textChunk (lit "world")]
         /\ error (state (run (summarize
                                 (quiet [textChunk (lit "Hello ");
                                         textChunk (lit "world")]))
                              (mounted foxDoc))) = None)
      /\ (flat_map contentOf [textChunk (lit "Hello world")] =
          flat_map contentOf [textChunk (lit "Hello "); textChunk (lit "world")] ->
          editor (run (summarize (quiet [textChunk (lit "Hello world")]))
                      (mounted foxDoc)) =
            editor (run (summarize
                           (quiet [textChunk (lit "Hello ");
                                   textChunk (lit "world")]))
                        (mounted foxDoc))
          /\ state (run (summarize (quiet [textChunk (lit "Hello world")]))
                        (mounted foxDoc)) =
             state (run (summarize
                           (quiet [textChunk (lit "Hello ");
                                   textChunk (lit "world")]))
                        (mounted foxDoc)))).
Proof.
  split; [reflexivity|]. split; [reflexivity|].
  split; [vm_compute; lia|]. split; [vm_compute; lia|].
  apply (quiet_window_holds_the_concatenation foxDoc (mounted foxDoc)
           [textChunk (lit "Hello "); textChunk (lit "world")]
           [textChunk (lit "Hello world")]);
    [reflexivity|reflexivity|vm_compute; lia|vm_compute; lia].
Defined.

Lemma C3_witness :
  In summarize aiHandlers
  /\ isStreaming (state busy) = true
  /\ run (summarize (fragments [lit "A"])) busy = busy
  /\ requests (run (summarize (fragments [lit "A"])) busy) = requests busy.
Proof.
  split; [left; reflexivity|]. split; [reflexivity|].
  apply (C3_trigger_while_active_is_noop summarize (fragments [lit "A"]) busy);
    [left; reflexivity|reflexivity].
Defined.

Lemma C4_witness :
  In (handler improveAction) aiHandlers
  /\ (forall e, editor (mounted caretDoc) = Some e ->
                from (selection e) = to (selection e))
  /\ run (handler improveAction (fragments [lit "A"])) (mounted caretDoc) =
     mounted caretDoc
  /\ requests
       (run (handler improveAction (fragments [lit "A"])) (mounted caretDoc)) =
     requests (mounted caretDoc)
  /\ state
       (run (handler improveAction (fragments [lit "A"])) (mounted caretDoc)) =
     state (mounted caretDoc).
Proof.
  assert (Hin : In (handler improveAction) (@aiHandlers PlainDoc _))
    by (right; right; left; reflexivity).
  assert (Hempty : forall e, editor (mounted caretDoc) = Some e ->
                             from (selection e) = to (selection e))
    by (intros e He; injection He as <-; reflexivity).
  split; [exact Hin|]. split; [exact Hempty|].
  exact (C4_empty_selection_is_noop (handler improveAction)
           (fragments [lit "A"]) (mounted caretDoc) Hin Hempty).
Defined.

Lemma C5_witness :
  editor (mounted foxDoc) = Some foxDoc
  /\ truthy (textBetween foxDoc (from (selection foxDoc))
               (to (selection foxDoc))) = true
  /\ truthy (contentOf (textChunk (lit "W"))) = true
  /\ (let failed :=
        snd (summarize_try
               (Opened (mkStream (staleItems ++ [Arrives (textChunk (lit "W"))])
                                 Exhausted))
               (mounted foxDoc)) in
      let done :=
        summarize_try
          (Opened (mkStream ((staleItems ++ [Arrives (textChunk (lit "W"))])
                             ++ [Arrives (textChunk (lit "!"))])
                            Exhausted))
          (mounted foxDoc) in
      error (state failed) = Some (lit "Error replacing selection")
      /\ In (lit "Error replacing selection:") (console failed)
      /\ fst done = Normal tt
      /\ (exists calls,
            replaceCalls (snd done) = replaceCalls failed ++ calls
            /\ length calls = textCount [Arrives (E:=PlainDoc) (textChunk (lit "!"))])
      /\ error (state (snd done)) = Some (lit "Error replacing selection")).
Proof.
  split; [reflexivity|]. split; [reflexivity|]. split; [reflexivity|].
  apply (C5_refused_replacement_does_not_stop_the_stream
           (mounted foxDoc) foxDoc staleItems
           [Arrives (textChunk (lit "!"))] (textChunk (lit "W")));
    [reflexivity|reflexivity|reflexivity|].
  intros e He. vm_compute in He. injection He as <-. vm_compute. reflexivity.
Defined.

Lemma C6_witness :
  In summarize aiHandlers
  /\ hasSelection (mounted foxDoc) = true
  /\ isStreaming (state (mounted foxDoc)) = false
  /\ ((forall resp,
         isStreaming (state (run (summarize resp) (mounted foxDoc))) = false
         /\ selectionRange (run (summarize resp) (mounted foxDoc)) = None
         /\ insertedLength (state (run (summarize resp) (mounted foxDoc))) = 0)
      /\ (forall e its t,
            editor (mounted foxDoc) = Some e ->
            truthy (textBetween e (from (selection e)) (to (selection e)))
              = true ->
            editor (run (summarize (Opened (mkStream its (Failed t))))
                        (mounted foxDoc)) =
              editor (run (summarize (Opened (mkStream its Exhausted)))
                          (mounted foxDoc))
            /\ replaceCalls (run (summarize (Opened (mkStream its (Failed t))))
                                 (mounted foxDoc)) =
                replaceCalls (run (summarize (Opened (mkStream its Exhausted)))
                                  (mounted foxDoc))
            /\ error (state (run (summarize (Opened (mkStream its (Failed t))))
                                 (mounted foxDoc))) =
                Some (messageOf t))).
Proof.
  split; [left; reflexivity|]. split; [reflexivity|]. split; [reflexivity|].
  apply (C6_every_operation_returns_to_idle summarize (mounted foxDoc));
    [left; reflexivity|reflexivity|reflexivity].
Defined.

(** The failure scenario of the specification: the stream throws after
    two fragments; both stay in the document and the message of the
    failure is the recorded error. *)
Example summarize_failure_scenario :
  option_map text
    (editor (run (summarize
                    (Opened (mkStream
                       [Arrives (textChunk (lit "A")); Arrives (textChunk (lit " fox"))]
                       (Failed (JsError (lit "Connection error."))))))
                 (mounted foxDoc))) =
    Some (lit "Say: A foxThe quick brown fox. End")
  /\ state (run (summarize
                   (Opened (mkStream
                      [Arrives (textChunk (lit "A")); Arrives (textChunk (lit " fox"))]
                      (Failed (JsError (lit "Connection error."))))))
                (mounted foxDoc)) =
     mkState false (Some (lit "Connection error.")) 0.
Proof. vm_compute. split; reflexivity. Qed.

(** The sample component [awaiting] is the one [summarize] is in when its
    stream has delivered nothing yet. *)
Example awaiting_is_reached :
  snd (summarize_try (Opened (mkStream [] Exhausted)) (mounted foxDoc)) =
  awaiting.
Proof. reflexivity. Qed.


(** A send without the argument reads the captured range, not the live
    selection: with a sentence selected and no AI action running, no
    selected text is embedded. *)
Example chat_send_ignores_live_selection :
  hasSelection (mounted foxDoc) = true
  /\ map messages
       (requests (run (sendMessage (fragments [lit "Fine."]) (lit "Why?") None)
                      (mounted foxDoc))) =
     [[ mkMessage system (chatSystemPrompt [] (getHTML foxDoc));
        mkMessage user (lit "Why?") ]].
Proof. split; reflexivity. Qed.

Example quick_prompt_ignores_live_selection :
  map messages
    (requests (run (handleQuickAction (fragments [lit "Fine."]) (lit "Why?"))
                   (mounted foxDoc))) =
  [[ mkMessage system (chatSystemPrompt [] (getHTML foxDoc));
     mkMessage user (lit "Why?") ]].
Proof. reflexivity. Qed.

(** A send made after the user has cut the document under a running
    action: the captured range ends past the document, reading it throws,
    and the send stops before its request. *)
Example chat_send_on_a_stale_range :
  readingThrows None
    (snd (summarize_try (Opened (mkStream staleItems Exhausted))
                        (mounted foxDoc))) <> None
  /\ requests
       (run (sendMessage (fragments [lit "Fine."]) (lit "Why?") None)
            (snd (summarize_try (Opened (mkStream staleItems Exhausted))
                                (mounted foxDoc)))) =
     requests
       (snd (summarize_try (Opened (mkStream staleItems Exhausted))
                           (mounted foxDoc)))
  /\ chatMessages
       (run (sendMessage (fragments [lit "Fine."]) (lit "Why?") None)
            (snd (summarize_try (Opened (mkStream staleItems Exhausted))
                                (mounted foxDoc)))) =
     [mkMessage user (lit "Why?")].
Proof. vm_compute. repeat split; try reflexivity. discriminate. Qed.


Lemma C9_witness :
  In improveAction quickActions
  /\ In completeAction quickActions
  /\ forgetWording (run (handler improveAction brokenStream) (mounted foxDoc)) =
     forgetWording (run (handler completeAction brokenStream) (mounted foxDoc))
  /\ exists systemInstruction promptWording,
      forall resp' w',
        run (handler improveAction resp') w' =
        parameterizedAction systemInstruction promptWording resp' w'.
Proof.
  split; [right; left; reflexivity|].
  split; [right; right; left; reflexivity|].
  apply (C9_quick_actions_differ_in_wording_only improveAction completeAction
           brokenStream (mounted foxDoc));
    [right; left; reflexivity|right; right; left; reflexivity].
Defined.

Lemma C10_witness :
  truthy (trim (lit "Why?")) = true
  /\ fails brokenStream
  /\ chatMessages (run (sendMessage brokenStream (lit "Why?") None)
                       (mounted foxDoc)) =
     chatMessages (mounted foxDoc) ++ [mkMessage user (lit "Why?")]
  /\ isChatLoading (run (sendMessage brokenStream (lit "Why?") None)
                        (mounted foxDoc)) = false.
Proof.
  split; [reflexivity|]. split; [cbn; discriminate|].
  apply (C10_failed_chat_keeps_user_message brokenStream (lit "Why?") None
           (mounted foxDoc)); [reflexivity|cbn; discriminate].
Defined.

(** ** Further properties of the component *)

(** *** Blank and non-blank texts *)

Lemma trimStart_blank (s : jsstring) :
  forallb isWhiteSpace s = true -> trimStart s = [].
Proof.
  induction s as [|c s IH]; cbn; [reflexivity|].
  destruct (isWhiteSpace c); cbn; [exact IH|discriminate].
Qed.

Lemma trim_all_whitespace (s : jsstring) :
  forallb isWhiteSpace s = true -> trim s = [].
Proof.
  intros Hs. unfold trim. now rewrite (trimStart_blank s Hs).
Qed.

Lemma trimStart_keeps_ink (s : jsstring) :
  existsb (fun c => negb (isWhiteSpace c)) s = true ->
  existsb (fun c => negb (isWhiteSpace c)) (trimStart s) = true.
Proof.
  induction s as [|c s IH]; cbn; [discriminate|].
  destruct (isWhiteSpace c) eqn:Hc; cbn.
  - exact IH.
  - intros _. now rewrite Hc.
Qed.

Lemma existsb_rev_true {A} (p : A -> bool) (l : list A) :
  existsb p l = true -> existsb p (rev l) = true.
Proof.
  intros Hl. apply existsb_exists in Hl. destruct Hl as (x & Hin & Hx).
  apply existsb_exists. exists x. split; [|exact Hx].
  apply in_rev. now rewrite rev_involutive.
Qed.

Lemma trim_with_ink (s : jsstring) :
  existsb (fun c => negb (isWhiteSpace c)) s = true ->
  truthy (trim s) = true.
Proof.
  intros Hs. unfold trim.
  assert (Hink : existsb (fun c => negb (isWhiteSpace c))
                   (rev (trimStart (rev (trimStart s)))) = true).
  { apply existsb_rev_true, trimStart_keeps_ink, existsb_rev_true,
      trimStart_keeps_ink, Hs. }
  destruct (rev (trimStart (rev (trimStart s)))); [discriminate|reflexivity].
Qed.

Section Further.

Context {E : Type} `{Widget E}.

(** What the user's edits leave alone. *)
Lemma applyEdits_frame {A} (f : World E -> A) :
  (forall edit w, f (userEdit edit w) = f w) ->
  forall its w, f (applyEdits its w) = f w.
Proof.
  intros Hf its.
  induction its as [|[chunk|edit] rest IH]; intros w; cbn;
    [reflexivity|apply IH|].
  change (fold_left _ rest ?x) with (applyEdits rest x).
  now rewrite IH, Hf.
Qed.

(** X1. A send whose text is only whitespace does nothing at all: no message
    is pushed, no request is sent, the input is not cleared and the
    loading flag is not touched. *)
Theorem blank_text_is_not_sent
    (resp : Response E) (text : jsstring) (selectedText : option jsstring)
    (w : World E) :
  forallb isWhiteSpace text = true ->
  run (sendMessage resp text selectedText) w = w.
Proof.
  intros Hblank. unfold run, sendMessage.
  now rewrite (trim_all_whitespace text Hblank).
Qed.

(** X2. A text with at least one unit that is not whitespace is sent as typed
    (it is not trimmed): the user message holds the text itself, and in
    the end the loading flag is false and the input is empty, whatever the
    response.  Unless reading the captured range throws, one request goes
    out, with the text itself as its user part; when it throws, none
    does. *)
Theorem text_with_ink_is_sent_untrimmed
    (resp : Response E) (text : jsstring) (selectedText : option jsstring)
    (w : World E) :
  existsb (fun c => negb (isWhiteSpace c)) text = true ->
  (exists later,
      chatMessages (run (sendMessage resp text selectedText) w) =
      chatMessages w ++ mkMessage user text :: later)
  /\ isChatLoading (run (sendMessage resp text selectedText) w) = false
  /\ newMessage (run (sendMessage resp text selectedText) w) = []
  /\ match readingThrows selectedText w with
     | None =>
         exists prompt,
           requests (run (sendMessage resp text selectedText) w) =
           requests w
           ++ [mkRequest [mkMessage system prompt; mkMessage user text]
                 (lit "llama3-8b-8192") true (7 # 10) 1024]
     | Some _ =>
         requests (run (sendMessage resp text selectedText) w) = requests w
     end.
Proof.
  intros Hink.
  rewrite (sendMessage_closed resp text selectedText w (trim_with_ink text Hink)).
  destruct (readingThrows selectedText w) as [thrown|].
  { repeat split. exists []. reflexivity. }
  split; [|split; [|split]].
  - destruct resp as [t|[its [|t]]]; cbn [ending items];
      cbn [set_newMessage set_isChatLoading log_console push_chatMessage
           chatMessages];
      rewrite ?applyEdits_chatMessages; cbn; rewrite <- ?app_assoc; cbn;
      eexists; reflexivity.
  - destruct resp as [t|[its [|t]]]; reflexivity.
  - destruct resp as [t|[its [|t]]]; reflexivity.
  - eexists.
    destruct resp as [t|[its [|t]]]; cbn [ending items];
      cbn [set_newMessage set_isChatLoading log_console push_chatMessage
           requests];
      rewrite ?applyEdits_requests; reflexivity.
Qed.

(** X3. A chat send, blank or not and whatever the response, never writes to
    the document and never touches the streaming state: the state of the
    AI actions, the captured range and the list of replacements asked of
    the widget are what they were. *)
Theorem chat_send_leaves_streaming_alone
    (resp : Response E) (text : jsstring) (selectedText : option jsstring)
    (w : World E) :
  state (run (sendMessage resp text selectedText) w) = state w
  /\ selectionRange (run (sendMessage resp text selectedText) w) =
     selectionRange w
  /\ replaceCalls (run (sendMessage resp text selectedText) w) =
     replaceCalls w.
Proof.
  destruct (truthy (trim text)) eqn:Htext.
  - rewrite (sendMessage_closed resp text selectedText w Htext).
    destruct (readingThrows selectedText w) as [thrown|];
      [repeat split|].
    destruct resp as [t|[its [|t]]]; cbn [ending items];
      cbn [set_newMessage set_isChatLoading log_console push_chatMessage
           state selectionRange replaceCalls];
      rewrite ?(applyEdits_frame state), ?(applyEdits_frame selectionRange),
        ?(applyEdits_frame replaceCalls);
      try (repeat split; reflexivity); reflexivity.
  - unfold run, sendMessage. rewrite Htext. repeat split.
Qed.

(** *** The AI actions once they start *)

Lemma parameterizedAction_started s p (resp : Response E) (w : World E) e :
  editor w = Some e ->
  hasSelection w = true ->
  isStreaming (state w) = false ->
  truthy (textBetween e (from (selection e)) (to (selection e))) = true ->
  parameterizedAction s p resp w =
  match resp with
  | Rejected t => toIdle (recordFailure t (requested s p e w))
  | Opened str =>
      match ending str with
      | Exhausted =>
          toIdle (snd (streaming (items str) ([], requested s p e w)))
      | Failed t =>
          toIdle (recordFailure t
                    (snd (streaming (items str) ([], requested s p e w))))
      end
  end.
Proof.
  intros He Hsel Hidle Htext.
  unfold hasSelection in Hsel. rewrite He in Hsel.
  unfold parameterizedAction. rewrite He, Hsel, Hidle.
  cbn [negb andb]. cbv zeta. rewrite Htext.
  destruct resp as [t|[its fin]]; reflexivity.
Qed.

Lemma parameterizedAction_no_text s p (resp : Response E) (w : World E) e :
  editor w = Some e ->
  hasSelection w = true ->
  isStreaming (state w) = false ->
  truthy (textBetween e (from (selection e)) (to (selection e))) = false ->
  parameterizedAction s p resp w =
  toIdle (recordFailure (JsError (lit "No text selected.")) (capturing e w)).
Proof.
  intros He Hsel Hidle Htext.
  unfold hasSelection in Hsel. rewrite He in Hsel.
  unfold parameterizedAction. rewrite He, Hsel, Hidle.
  cbn [negb andb]. cbv zeta. now rewrite Htext.
Qed.

Lemma replaceSelection_frame {A} (f : World E -> A) :
  (forall e x, f (set_editor e x) = f x) ->
  (forall s x, f (set_state s x) = f x) ->
  (forall c x, f (log_replaceCall c x) = f x) ->
  (forall l x, f (log_console l x) = f x) ->
  forall t w, f (replaceSelection t w) = f w.
Proof.
  intros Hed Hst Hcall Hlog t w. unfold replaceSelection.
  destruct (editor w), (selectionRange w); try reflexivity.
  destruct (replaceWith _ _ _ _).
  - unfold set_insertedLength. now rewrite Hst, Hed, Hcall.
  - unfold set_error. now rewrite Hlog, Hst, Hcall.
Qed.

Lemma streaming_frame {A} (f : World E -> A) :
  (forall e x, f (set_editor e x) = f x) ->
  (forall s x, f (set_state s x) = f x) ->
  (forall c x, f (log_replaceCall c x) = f x) ->
  (forall l x, f (log_console l x) = f x) ->
  forall its acc w, f (snd (streaming its (acc, w))) = f w.
Proof.
  intros Hed Hst Hcall Hlog its acc w.
  apply (streaming_preserves (fun x => f x = f w)); [| |reflexivity].
  - intros t x Hx. now rewrite replaceSelection_frame.
  - intros edit x Hx. unfold userEdit. now rewrite Hed.
Qed.

(** X6. An AI action never touches the chat: the transcript, the input and
    the loading flag are what they were, whatever the response and whether
    the action starts or not. *)
Theorem ai_action_leaves_chat_alone
    (h : Response E -> Eff E unit) (resp : Response E) (w : World E) :
  In h aiHandlers ->
  chatMessages (run (h resp) w) = chatMessages w
  /\ newMessage (run (h resp) w) = newMessage w
  /\ isChatLoading (run (h resp) w) = isChatLoading w.
Proof.
  intros Hh.
  destruct (aiHandlers_parameterized h Hh) as (s & p & Heq). rewrite Heq.
  unfold parameterizedAction.
  destruct (editor w) as [e|]; [|repeat split].
  destruct (_ && _); [|repeat split].
  cbv zeta. destruct (truthy _); [|repeat split].
  destruct resp as [t|[its [|t]]]; cbn [items ending];
    cbn [toIdle recordFailure set_insertedLength set_selectionRange
         set_isStreaming set_error set_state log_console chatMessages
         newMessage isChatLoading];
    rewrite ?(streaming_frame chatMessages), ?(streaming_frame newMessage),
      ?(streaming_frame isChatLoading);
    try (repeat split; reflexivity); reflexivity.
Qed.

(** X7. A selection that is not empty but holds no text (a selected node, say)
    starts the action and stops it at once: no request is sent, the
    document is not written to, and the component is idle again with the
    error 'No text selected.'. *)
Theorem selection_without_text_fails_locally
    (h : Response E -> Eff E unit) (resp : Response E) (w : World E) (e : E) :
  In h aiHandlers ->
  editor w = Some e ->
  hasSelection w = true ->
  isStreaming (state w) = false ->
  truthy (textBetween e (from (selection e)) (to (selection e))) = false ->
  state (run (h resp) w) = mkState false (Some (lit "No text selected.")) 0
  /\ selectionRange (run (h resp) w) = None
  /\ requests (run (h resp) w) = requests w
  /\ replaceCalls (run (h resp) w) = replaceCalls w
  /\ editor (run (h resp) w) = Some e.
Proof.
  intros Hh He Hsel Hidle Htext.
  destruct (aiHandlers_parameterized h Hh) as (s & p & Heq). rewrite Heq.
  rewrite (parameterizedAction_no_text s p resp w e He Hsel Hidle Htext).
  cbn. rewrite He. repeat split.
Qed.

(** X8. An action that starts on a selected text sends exactly one request,
    whatever the response: the system instruction of the action, then a
    user message that is the action's wording followed by the selected
    text, as it is, between double quotes. *)
Theorem started_action_sends_one_request_quoting_the_selection
    (h : Response E -> Eff E unit) :
  In h aiHandlers ->
  exists systemInstruction promptWording,
    forall (resp : Response E) (w : World E) (e : E),
      editor w = Some e ->
      hasSelection w = true ->
      isStreaming (state w) = false ->
      truthy (textBetween e (from (selection e)) (to (selection e))) = true ->
      requests (run (h resp) w) =
      requests w
      ++ [mkRequest
            [ mkMessage system systemInstruction;
              mkMessage user
                (promptWording ++ dquote
                 ++ textBetween e (from (selection e)) (to (selection e))
                 ++ dquote) ]
            (lit "llama3-8b-8192") true (7 # 10) 1024].
Proof.
  intros Hh.
  destruct (aiHandlers_parameterized h Hh) as (s & p & Heq).
  exists s, p. intros resp w e He Hsel Hidle Htext. rewrite Heq.
  rewrite (parameterizedAction_started s p resp w e He Hsel Hidle Htext).
  destruct resp as [t|[its [|t]]]; cbn [items ending];
    cbn [toIdle recordFailure set_insertedLength set_selectionRange
         set_isStreaming set_error set_state log_console requests];
    rewrite ?(streaming_frame requests); try reflexivity.
Qed.

(** X9. When the request of a started action is rejected, the document is not
    written to: no replacement is asked of the widget, the widget is the
    one of before, and the component is idle again with the message of the
    failure as its error. *)
Theorem rejected_request_leaves_document_alone
    (h : Response E -> Eff E unit) (t : Thrown) (w : World E) (e : E) :
  In h aiHandlers ->
  editor w = Some e ->
  hasSelection w = true ->
  isStreaming (state w) = false ->
  truthy (textBetween e (from (selection e)) (to (selection e))) = true ->
  editor (run (h (Rejected t)) w) = Some e
  /\ replaceCalls (run (h (Rejected t)) w) = replaceCalls w
  /\ state (run (h (Rejected t)) w) = mkState false (Some (messageOf t)) 0
  /\ selectionRange (run (h (Rejected t)) w) = None.
Proof.
  intros Hh He Hsel Hidle Htext.
  destruct (aiHandlers_parameterized h Hh) as (s & p & Heq). rewrite Heq.
  rewrite (parameterizedAction_started s p (Rejected t) w e He Hsel Hidle Htext).
  cbn. rewrite He. repeat split.
Qed.

(** *** The replacements of one operation *)

Lemma streaming_calls its :
  forall acc (w : World E) r,
    editor w <> None ->
    selectionRange w = Some r ->
    exists calls,
      replaceCalls (snd (streaming its (acc, w))) = replaceCalls w ++ calls
      /\ map callText calls = accumulations acc its
      /\ Forall (fun c => callFrom c = from r) calls.
Proof.
  induction its as [|it rest IH]; intros acc w r He Hr.
  - exists []. split; [now rewrite app_nil_r|]. split; constructor.
  - destruct it as [chunk|edit]; cbn [streaming fold_left accumulations];
      change (fold_left _ rest ?p) with (streaming rest p).
    + destruct (truthy (contentOf chunk)).
      * rewrite replaceSelection_onFragment.
        destruct (editor w) as [e|] eqn:Hew; [|contradiction].
        destruct (replaceSelection_step (acc ++ contentOf chunk) w e r Hew Hr)
          as (Hcalls & _).
        destruct (IH (acc ++ contentOf chunk)
                     (replaceSelection (acc ++ contentOf chunk) w) r)
          as (calls & Hc & Htexts & Hfrom).
        { apply replaceSelection_editor. congruence. }
        { now rewrite replaceSelection_selectionRange. }
        exists (mkCall (from r) (from r + insertedLength (state w))
                       (acc ++ contentOf chunk) :: calls).
        split; [|split].
        -- etransitivity; [exact Hc|].
           rewrite Hcalls, <- app_assoc. reflexivity.
        -- cbn. f_equal. exact Htexts.
        -- constructor; [reflexivity|exact Hfrom].
      * apply IH; assumption.
    + destruct (IH acc (userEdit edit w) r) as (calls & Hc & Htexts & Hfrom).
      { cbn. destruct (editor w); cbn; congruence. }
      { exact Hr. }
      exists calls. split; [exact Hc|]. split; assumption.
Qed.

(** X10. The replacements an operation asks of the widget are, in the order of
    arrival, one per chunk that carries text; each carries the whole text
    accumulated so far and starts at the start of the selection captured
    at the trigger.  No fragment is left out and none is written twice,
    whether or not the widget accepts and whatever the user edits in
    between. *)
Theorem replacements_follow_the_fragments_in_order
    (h : Response E -> Eff E unit) (its : list (Item E)) (fin : Ending)
    (w : World E) (e : E) :
  In h aiHandlers ->
  editor w = Some e ->
  hasSelection w = true ->
  isStreaming (state w) = false ->
  truthy (textBetween e (from (selection e)) (to (selection e))) = true ->
  exists calls,
    replaceCalls (run (h (Opened (mkStream its fin))) w) =
      replaceCalls w ++ calls
    /\ map callText calls = accumulations [] its
    /\ Forall (fun c => callFrom c = from (selection e)) calls.
Proof.
  intros Hh He Hsel Hidle Htext.
  destruct (aiHandlers_parameterized h Hh) as (s & p & Heq). rewrite Heq.
  rewrite (parameterizedAction_started s p _ w e He Hsel Hidle Htext).
  cbn [items ending].
  destruct (streaming_calls its [] (requested s p e w)
              (mkRange (from (selection e)) (to (selection e))))
    as (calls & Hc & Htexts & Hfrom).
  { cbn. congruence. }
  { reflexivity. }
  exists calls. split; [|split; assumption].
  destruct fin; exact Hc.
Qed.

Lemma streaming_insertedLength its :
  forall acc (w : World E),
    insertedLength (state w) <= length acc ->
    insertedLength (state w) <=
      insertedLength (state (snd (streaming its (acc, w))))
    /\ insertedLength (state (snd (streaming its (acc, w)))) <=
       length (fst (streaming its (acc, w))).
Proof.
  induction its as [|it rest IH]; intros acc w Hle.
  - cbn. split; [apply Nat.le_refl|exact Hle].
  - destruct it as [chunk|edit]; cbn [streaming fold_left];
      change (fold_left _ rest ?p) with (streaming rest p).
    + destruct (truthy (contentOf chunk)); [|apply IH, Hle].
      rewrite replaceSelection_onFragment.
      assert (Hstep :
        insertedLength (state w) <=
          insertedLength (state (replaceSelection (acc ++ contentOf chunk) w))
        /\ insertedLength (state (replaceSelection (acc ++ contentOf chunk) w))
           <= length (acc ++ contentOf chunk)).
      { unfold replaceSelection. rewrite length_app.
        destruct (editor w), (selectionRange w); try (split; lia).
        destruct (replaceWith _ _ _ _); cbn; rewrite ?length_app; split; lia. }
      destruct Hstep as (Hup & Hbound).
      destruct (IH _ _ Hbound) as (Hup' & Hbound').
      split; [lia|exact Hbound'].
    + cbn [fst snd]. apply (IH acc (userEdit edit w)). exact Hle.
Qed.

(** X11. Within one run of [summarize], [insertedLength] never decreases and is
    never more than the length of the text accumulated so far, whatever
    the widget refuses and whatever the user edits in between. *)
Theorem insertedLength_grows_within_the_accumulated_text
    (w0 : World E) (e0 : E) (pre post : list (Item E)) :
  editor w0 = Some e0 ->
  truthy (textBetween e0 (from (selection e0)) (to (selection e0))) = true ->
  insertedLength
    (state (snd (summarize_try (Opened (mkStream pre Exhausted)) w0)))
  <= insertedLength
       (state (snd (summarize_try
                      (Opened (mkStream (pre ++ post) Exhausted)) w0)))
  /\ insertedLength
       (state (snd (summarize_try (Opened (mkStream pre Exhausted)) w0)))
     <= length (accumulatedText pre).
Proof.
  intros He Hsel.
  destruct (summarize_try_streaming w0 e0 pre He Hsel)
    as (Hpre & Hacc & _).
  destruct (summarize_try_streaming w0 e0 (pre ++ post) He Hsel)
    as (Hall & _).
  rewrite Hpre, Hall, streaming_app.
  destruct (streaming_insertedLength pre []
              (requested summarizeInstruction (lit "Summarize this text: ")
                 e0 w0)) as (_ & Hbound); [cbn; lia|].
  destruct (streaming pre _) as [acc wp]. cbn [fst snd] in *. subst acc.
  destruct (streaming_insertedLength post (accumulatedText pre) wp Hbound)
    as (Hup & _).
  split; assumption.
Qed.

(** *** Chunks that carry no text *)

Lemma streaming_withoutEmptyChunks its :
  forall p : jsstring * World E,
    streaming (withoutEmptyChunks its) p = streaming its p.
Proof.
  induction its as [|[chunk|edit] rest IH]; intros p; [reflexivity| |].
  - cbn [withoutEmptyChunks filter streaming fold_left].
    destruct (truthy (contentOf chunk)) eqn:Ht.
    + cbn [fold_left]. rewrite Ht. apply IH.
    + apply IH.
  - cbn [withoutEmptyChunks filter streaming fold_left]. apply IH.
Qed.

Lemma accumulatedText_withoutEmptyChunks (its : list (Item E)) :
  accumulatedText (withoutEmptyChunks its) = accumulatedText its.
Proof.
  induction its as [|[chunk|edit] rest IH]; [reflexivity| |].
  - cbn [withoutEmptyChunks filter accumulatedText flat_map].
    destruct (truthy (contentOf chunk)) eqn:Ht.
    + cbn [flat_map]. f_equal. exact IH.
    + destruct (contentOf chunk); [exact IH|discriminate].
  - cbn [withoutEmptyChunks filter accumulatedText flat_map]. exact IH.
Qed.

Lemma applyEdits_withoutEmptyChunks (its : list (Item E)) :
  forall w, applyEdits (withoutEmptyChunks its) w = applyEdits its w.
Proof.
  induction its as [|[chunk|edit] rest IH]; intros w; [reflexivity| |].
  - cbn [withoutEmptyChunks filter applyEdits fold_left].
    destruct (truthy (contentOf chunk)); [|apply IH].
    cbn [fold_left]. apply IH.
  - cbn [withoutEmptyChunks filter applyEdits fold_left]. apply IH.
Qed.

(** X12. Chunks without text (no choice, no delta, no content or an empty
    content) count for nothing: an AI action and a chat send end in the
    same component as on the stream without them. *)
Theorem chunks_without_text_are_ignored
    (h : Response E -> Eff E unit) (its : list (Item E)) (fin : Ending)
    (text : jsstring) (selectedText : option jsstring) (w : World E) :
  In h aiHandlers ->
  run (h (Opened (mkStream its fin))) w =
    run (h (Opened (mkStream (withoutEmptyChunks its) fin))) w
  /\ run (sendMessage (Opened (mkStream its fin)) text selectedText) w =
     run (sendMessage (Opened (mkStream (withoutEmptyChunks its) fin))
            text selectedText) w.
Proof.
  intros Hh. split.
  - destruct (aiHandlers_parameterized h Hh) as (s & p & Heq). rewrite !Heq.
    unfold parameterizedAction.
    destruct (editor w) as [e|]; [|reflexivity].
    destruct (_ && _); [|reflexivity].
    cbv zeta. destruct (truthy _); [|reflexivity].
    cbn [items ending]. now rewrite streaming_withoutEmptyChunks.
  - destruct (truthy (trim text)) eqn:Htext.
    + rewrite !(sendMessage_closed _ text selectedText w Htext).
      destruct (readingThrows selectedText w); [reflexivity|].
      cbn [items ending].
      now rewrite accumulatedText_withoutEmptyChunks,
        applyEdits_withoutEmptyChunks.
    + unfold run, sendMessage. now rewrite Htext.
Qed.

(** *** Errors of an earlier operation *)

(** X13. An action that starts wipes the error of an earlier one: when its
    stream is exhausted, the error is either absent or the one of a
    refused replacement of this very run, and it is absent when no chunk
    carried text. *)
Theorem exhausted_stream_leaves_no_stale_error
    (h : Response E -> Eff E unit) (its : list (Item E))
    (w : World E) (e : E) :
  In h aiHandlers ->
  editor w = Some e ->
  hasSelection w = true ->
  isStreaming (state w) = false ->
  truthy (textBetween e (from (selection e)) (to (selection e))) = true ->
  (error (state (run (h (Opened (mkStream its Exhausted))) w)) = None
   \/ error (state (run (h (Opened (mkStream its Exhausted))) w)) =
      Some (lit "Error replacing selection"))
  /\ (textCount its = 0 ->
      error (state (run (h (Opened (mkStream its Exhausted))) w)) = None).
Proof.
  intros Hh He Hsel Hidle Htext.
  destruct (aiHandlers_parameterized h Hh) as (s & p & Heq). rewrite Heq.
  rewrite (parameterizedAction_started s p _ w e He Hsel Hidle Htext).
  cbn [items ending].
  change (error (state (toIdle ?x))) with (error (state x)).
  split.
  - apply (streaming_preserves
      (fun x => error (state x) = None
                \/ error (state x) = Some (lit "Error replacing selection"))).
    + intros t x Hx. unfold replaceSelection.
      destruct (editor x), (selectionRange x); try assumption.
      destruct (replaceWith _ _ _ _); cbn; [assumption|now right].
    + intros edit x Hx. exact Hx.
    + left. reflexivity.
  - intros Hnone.
    rewrite <- streaming_withoutEmptyChunks.
    assert (Hframe : forall xs acc (x : World E),
      Forall (fun it => match it with
                        | Arrives _ => False
                        | UserEdit _ => True
                        end) xs ->
      error (state (snd (streaming xs (acc, x)))) = error (state x)).
    { induction xs as [|[chunk|edit] rest IH]; intros acc x Hxs;
        [reflexivity| |]; inversion Hxs; subst; [contradiction|].
      cbn [streaming fold_left].
      change (fold_left _ rest ?q) with (streaming rest q).
      cbn [fst snd]. now rewrite IH. }
    rewrite Hframe; [reflexivity|].
    clear - Hnone. unfold textCount in Hnone. unfold withoutEmptyChunks.
    induction its as [|[chunk|edit] rest IH]; cbn [filter] in *;
      [constructor| |].
    + destruct (truthy (contentOf chunk)); [discriminate|].
      apply IH, Hnone.
    + constructor; [exact I|apply IH, Hnone].
Qed.

(** *** The selected text outside an AI action *)

Lemma getSelectedText_idle (w : World E) :
  selectionRange w = None -> getSelectedText w = [].
Proof.
  intros Hr. unfold getSelectedText. rewrite Hr. now destruct (editor w).
Qed.

(** X4. While no range is captured, that is outside a running AI action, the
    chat never embeds a selected text of its own finding, whatever the
    user has selected: a send with no (or an empty) selected-text argument
    asks with the document export as its only context, and
    [handleQuickAction] is that same send when there is a selection and
    nothing at all when there is none. *)
Theorem idle_chat_embeds_no_selected_text
    (resp : Response E) (text : jsstring) (selectedText : option jsstring)
    (w : World E) :
  selectionRange w = None ->
  (truthy (trim text) = true ->
   selectedText = None \/ selectedText = Some [] ->
   requests (run (sendMessage resp text selectedText) w) =
   requests w
   ++ [mkRequest
         [ mkMessage system (chatSystemPrompt [] (exported w));
           mkMessage user text ]
         (lit "llama3-8b-8192") true (7 # 10) 1024])
  /\ run (handleQuickAction resp text) w =
     (if hasSelection w then run (sendMessage resp text None) w else w).
Proof.
  intros Hr.
  assert (Hquiet : getSelectedText_throws w = None).
  { unfold getSelectedText_throws. rewrite Hr. now destruct (editor w). }
  split.
  - intros Htext Harg.
    rewrite (sendMessage_closed resp text selectedText w Htext).
    assert (Hread : readingThrows selectedText w = None).
    { unfold readingThrows. rewrite Hquiet.
      destruct selectedText as [[|c rest]|]; reflexivity. }
    rewrite Hread.
    assert (Hcur : selectionInUse selectedText w = []).
    { unfold selectionInUse. rewrite (getSelectedText_idle w Hr).
      destruct Harg as [->| ->]; reflexivity. }
    destruct resp as [t|[its [|t]]]; cbn [ending items];
      cbn [set_newMessage set_isChatLoading log_console push_chatMessage
           requests];
      rewrite ?applyEdits_requests; unfold chatSent; rewrite Hcur;
      reflexivity.
  - unfold run at 1. unfold handleQuickAction, bind, get.
    destruct (hasSelection w); cbn [negb]; [|reflexivity].
    unfold getSelectedText_call.
    now rewrite Hquiet, (getSelectedText_idle w Hr).
Qed.

(** X5. The context indicator of the template: without a live selection
    it is the full-document line; with one, rendering it throws when
    reading the captured range throws, and else it is the selected-text
    line, which shows at most 53 units: the captured text as it is when it
    has at most 50 units, its first 50 units and an ellipsis when it has
    more, and nothing while no range is captured. *)
Theorem context_indicator_is_bounded (w : World E) :
  (hasSelection w = false -> contextIndicator w = Normal FullDocumentLine)
  /\ (forall t,
        hasSelection w = true -> getSelectedText_throws w = Some t ->
        contextIndicator w = Throws t)
  /\ (hasSelection w = true -> getSelectedText_throws w = None ->
      exists shown,
        contextIndicator w = Normal (SelectedTextLine shown)
        /\ length shown <= 53
        /\ (length (getSelectedText w) <= 50 -> shown = getSelectedText w)
        /\ (50 < length (getSelectedText w) ->
            shown = firstn 50 (getSelectedText w) ++ lit "..."
            /\ length shown = 53)
        /\ (selectionRange w = None -> shown = [])).
Proof.
  unfold contextIndicator. split; [|split].
  - intros Hsel. now rewrite Hsel.
  - intros t Hsel Hthrows. now rewrite Hsel, Hthrows.
  - intros Hsel Hthrows. rewrite Hsel, Hthrows.
    eexists. split; [reflexivity|]. split; [|split; [|split]].
    + rewrite length_app, length_firstn.
      destruct (50 <? length (getSelectedText w));
        [change (length (lit "...")) with 3|cbn [length]]; lia.
    + intros Hshort.
      destruct (Nat.ltb_spec 50 (length (getSelectedText w))); [lia|].
      rewrite app_nil_r. now apply firstn_all2.
    + intros Hlong.
      destruct (Nat.ltb_spec 50 (length (getSelectedText w))); [|lia].
      split; [reflexivity|].
      rewrite length_app, length_firstn.
      change (length (lit "...")) with 3. lia.
    + intros Hr. now rewrite (getSelectedText_idle w Hr).
Qed.

End Further.

(** *** Runs of summarize one after the other, on the plain-text widget *)

Lemma inserted_inserted (d : PlainDoc) (s1 s2 : jsstring) :
  from (sel d) <= length (text d) ->
  inserted (inserted d s1) s2 = inserted d (s1 ++ s2).
Proof.
  intros Ha.
  destruct (truthy s1) eqn:H1; [|destruct s1; [reflexivity|discriminate]].
  destruct (truthy s2) eqn:H2;
    [|destruct s2; [now rewrite app_nil_r|discriminate]].
  assert (H12 : truthy (s1 ++ s2) = true).
  { apply truthy_length. rewrite length_app.
    apply truthy_length in H1. lia. }
  destruct d as [t [a b]]. cbn [sel text from to] in *.
  unfold inserted. cbn [sel text from to]. rewrite H1.
  cbn [sel text from to]. rewrite H2, H12.
  assert (Hp : length (firstn a t ++ s1) = a + length s1).
  { rewrite length_app, firstn_length_le by exact Ha. reflexivity. }
  apply f_equal2.
  - rewrite (app_assoc (firstn a t) s1 (skipn a t)).
    rewrite firstn_app, skipn_app, Hp, Nat.sub_diag.
    rewrite (firstn_all2 (n := a + length s1) (firstn a t ++ s1)) by lia.
    rewrite (skipn_all2 (n := a + length s1) (firstn a t ++ s1)) by lia.
    cbn [firstn skipn]. rewrite app_nil_r, app_nil_l.
    now rewrite <- !app_assoc.
  - rewrite length_app. apply f_equal2; lia.
Qed.

Lemma inserted_selection (d : PlainDoc) (s : jsstring) :
  from (sel d) < to (sel d) ->
  to (sel d) <= length (text d) ->
  from (sel (inserted d s)) < to (sel (inserted d s))
  /\ to (sel (inserted d s)) <= length (text (inserted d s))
  /\ plain_textBetween (inserted d s) (from (sel (inserted d s)))
       (to (sel (inserted d s))) =
     plain_textBetween d (from (sel d)) (to (sel d)).
Proof.
  intros Hab Hb.
  destruct (truthy s) eqn:Hs;
    [|destruct s; [repeat split; assumption|discriminate]].
  destruct d as [t [a b]]. cbn [sel text from to] in *.
  unfold inserted. cbn [sel text from to]. rewrite Hs.
  cbn [sel text from to].
  assert (Hp : length (firstn a t ++ s) = a + length s).
  { rewrite length_app, firstn_length_le by lia. reflexivity. }
  split; [lia|]. split.
  - rewrite !length_app, firstn_length_le, length_skipn by lia. lia.
  - unfold plain_textBetween. cbn [text].
    rewrite (app_assoc (firstn a t) s (skipn a t)).
    rewrite skipn_app, Hp, Nat.sub_diag.
    rewrite (skipn_all2 (n := a + length s) (firstn a t ++ s)) by lia.
    cbn [skipn app]. f_equal. lia.
Qed.

(** X15. Two runs of [summarize] one after the other, with no edit in between,
    leave the document of one run on the two streams joined: the second
    text follows the first, in front of the text that was selected.  After
    a run the selection is still the text that was selected, so the action
    can be triggered again. *)
Theorem summarize_runs_compose
    (d0 : PlainDoc) (w : World PlainDoc) (first second : list Chunk) :
  editor w = Some d0 ->
  isStreaming (state w) = false ->
  from (sel d0) < to (sel d0) ->
  to (sel d0) <= length (text d0) ->
  editor (run (summarize (quiet second)) (run (summarize (quiet first)) w)) =
    editor (run (summarize (quiet (first ++ second))) w)
  /\ hasSelection (run (summarize (quiet first)) w) = true
  /\ (exists d,
        editor (run (summarize (quiet first)) w) = Some d
        /\ textBetween d (from (selection d)) (to (selection d)) =
           textBetween d0 (from (selection d0)) (to (selection d0))).
Proof.
  intros He Hidle Hab Hb.
  destruct (summarize_quiet d0 w first He Hidle Hab Hb) as (Hed1 & Hst1).
  destruct (inserted_selection d0 (flat_map contentOf first) Hab Hb)
    as (Hab1 & Hb1 & Htext1).
  assert (Hidle1 : isStreaming (state (run (summarize (quiet first)) w))
                   = false) by now rewrite Hst1.
  destruct (summarize_quiet _ _ second Hed1 Hidle1 Hab1 Hb1) as (Hed2 & _).
  destruct (summarize_quiet d0 w (first ++ second) He Hidle Hab Hb)
    as (Hed12 & _).
  split; [|split].
  - rewrite Hed2, Hed12, flat_map_app. f_equal.
    apply inserted_inserted. lia.
  - unfold hasSelection. rewrite Hed1. cbn [selection plain_widget].
    destruct (Nat.eqb_spec (from (sel (inserted d0 (flat_map contentOf first))))
                (to (sel (inserted d0 (flat_map contentOf first)))));
      [lia|reflexivity].
  - exists (inserted d0 (flat_map contentOf first)).
    split; [exact Hed1|exact Htext1].
Qed.

(** *** The further properties on sample runs *)

Lemma blank_text_is_not_sent_witness :
  forallb isWhiteSpace (lit "   ") = true
  /\ run (sendMessage (fragments [lit "Fine."]) (lit "   ") None)
         (mounted foxDoc) = mounted foxDoc.
Proof.
  split; [reflexivity|].
  apply (blank_text_is_not_sent (fragments [lit "Fine."]) (lit "   ") None
           (mounted foxDoc)).
  reflexivity.
Defined.

Lemma text_with_ink_is_sent_untrimmed_witness :
  existsb (fun c => negb (isWhiteSpace c)) (lit " Why? ") = true
  /\ ((exists later,
         chatMessages (run (sendMessage brokenStream (lit " Why? ") None)
                           (mounted foxDoc)) =
         chatMessages (mounted foxDoc)
         ++ mkMessage user (lit " Why? ") :: later)
      /\ isChatLoading (run (sendMessage brokenStream (lit " Why? ") None)
                            (mounted foxDoc)) = false
      /\ newMessage (run (sendMessage brokenStream (lit " Why? ") None)
                         (mounted foxDoc)) = []
      /\ match readingThrows None (mounted foxDoc) with
         | None =>
             exists prompt,
               requests (run (sendMessage brokenStream (lit " Why? ") None)
                             (mounted foxDoc)) =
               requests (mounted foxDoc)
               ++ [mkRequest
                     [mkMessage system prompt; mkMessage user (lit " Why? ")]
                     (lit "llama3-8b-8192") true (7 # 10) 1024]
         | Some _ =>
             requests (run (sendMessage brokenStream (lit " Why? ") None)
                           (mounted foxDoc)) =
             requests (mounted foxDoc)
         end).
Proof.
  split; [reflexivity|].
  apply (text_with_ink_is_sent_untrimmed brokenStream (lit " Why? ") None
           (mounted foxDoc)).
  reflexivity.
Defined.

Lemma ai_action_leaves_chat_alone_witness :
  In summarize aiHandlers
  /\ chatMessages (run (summarize brokenStream) (mounted foxDoc)) =
     chatMessages (mounted foxDoc)
  /\ newMessage (run (summarize brokenStream) (mounted foxDoc)) =
     newMessage (mounted foxDoc)
  /\ isChatLoading (run (summarize brokenStream) (mounted foxDoc)) =
     isChatLoading (mounted foxDoc).
Proof.
  split; [left; reflexivity|].
  apply (ai_action_leaves_chat_alone summarize brokenStream (mounted foxDoc)).
  left; reflexivity.
Defined.

Lemma selection_without_text_fails_locally_witness :
  In summarize aiHandlers
  /\ editor (mounted ruleDoc) = Some ruleDoc
  /\ hasSelection (mounted ruleDoc) = true
  /\ isStreaming (state (mounted ruleDoc)) = false
  /\ truthy (textBetween ruleDoc (from (selection ruleDoc))
               (to (selection ruleDoc))) = false
  /\ state (run (summarize (fragments [lit "A"])) (mounted ruleDoc)) =
     mkState false (Some (lit "No text selected.")) 0
  /\ selectionRange (run (summarize (fragments [lit "A"])) (mounted ruleDoc))
     = None
  /\ requests (run (summarize (fragments [lit "A"])) (mounted ruleDoc)) =
     requests (mounted ruleDoc)
  /\ replaceCalls (run (summarize (fragments [lit "A"])) (mounted ruleDoc)) =
     replaceCalls (mounted ruleDoc)
  /\ editor (run (summarize (fragments [lit "A"])) (mounted ruleDoc)) =
     Some ruleDoc.
Proof.
  split; [left; reflexivity|]. split; [reflexivity|]. split; [reflexivity|].
  split; [reflexivity|]. split; [reflexivity|].
  apply (selection_without_text_fails_locally summarize (fragments [lit "A"])
           (mounted ruleDoc) ruleDoc);
    [left; reflexivity|reflexivity|reflexivity|reflexivity|reflexivity].
Defined.

Lemma started_action_sends_one_request_witness :
  In (handler improveAction) aiHandlers
  /\ exists systemInstruction promptWording,
      forall (resp : Response PlainDoc) (w : World PlainDoc) (e : PlainDoc),
        editor w = Some e ->
        hasSelection w = true ->
        isStreaming (state w) = false ->
        truthy (textBetween e (from (selection e)) (to (selection e))) = true ->
        requests (run (handler improveAction resp) w) =
        requests w
        ++ [mkRequest
              [ mkMessage system systemInstruction;
                mkMessage user
                  (promptWording ++ dquote
                   ++ textBetween e (from (selection e)) (to (selection e))
                   ++ dquote) ]
              (lit "llama3-8b-8192") true (7 # 10) 1024].
Proof.
  split; [right; right; left; reflexivity|].
  apply (started_action_sends_one_request_quoting_the_selection
           (handler improveAction)).
  right; right; left; reflexivity.
Defined.

Lemma rejected_request_leaves_document_alone_witness :
  In summarize aiHandlers
  /\ editor (mounted foxDoc) = Some foxDoc
  /\ hasSelection (mounted foxDoc) = true
  /\ isStreaming (state (mounted foxDoc)) = false
  /\ truthy (textBetween foxDoc (from (selection foxDoc))
               (to (selection foxDoc))) = true
  /\ editor (run (summarize (Rejected (JsError (lit "Connection error."))))
                 (mounted foxDoc)) = Some foxDoc
  /\ replaceCalls
       (run (summarize (Rejected (JsError (lit "Connection error."))))
            (mounted foxDoc)) = replaceCalls (mounted foxDoc)
  /\ state (run (summarize (Rejected (JsError (lit "Connection error."))))
                (mounted foxDoc)) =
     mkState false (Some (messageOf (JsError (lit "Connection error.")))) 0
  /\ selectionRange
       (run (summarize (Rejected (JsError (lit "Connection error."))))
            (mounted foxDoc)) = None.
Proof.
  split; [left; reflexivity|]. split; [reflexivity|]. split; [reflexivity|].
  split; [reflexivity|]. split; [reflexivity|].
  apply (rejected_request_leaves_document_alone summarize
           (JsError (lit "Connection error.")) (mounted foxDoc) foxDoc);
    [left; reflexivity|reflexivity|reflexivity|reflexivity|reflexivity].
Defined.

Lemma replacements_follow_the_fragments_witness :
  In summarize aiHandlers
  /\ editor (mounted foxDoc) = Some foxDoc
  /\ hasSelection (mounted foxDoc) = true
  /\ isStreaming (state (mounted foxDoc)) = false
  /\ truthy (textBetween foxDoc (from (selection foxDoc))
               (to (selection foxDoc))) = true
  /\ exists calls,
      replaceCalls
        (run (summarize
                (Opened (mkStream (staleItems ++ [Arrives (textChunk (lit "W"))])
                                  Exhausted)))
             (mounted foxDoc)) = replaceCalls (mounted foxDoc) ++ calls
      /\ map callText calls =
         accumulations [] (staleItems ++ [Arrives (textChunk (lit "W"))])
      /\ Forall (fun c => callFrom c = from (selection foxDoc)) calls.
Proof.
  split; [left; reflexivity|]. split; [reflexivity|]. split; [reflexivity|].
  split; [reflexivity|]. split; [reflexivity|].
  apply (replacements_follow_the_fragments_in_order summarize
           (staleItems ++ [Arrives (textChunk (lit "W"))]) Exhausted
           (mounted foxDoc) foxDoc);
    [left; reflexivity|reflexivity|reflexivity|reflexivity|reflexivity].
Defined.

Lemma insertedLength_grows_witness :
  editor (mounted foxDoc) = Some foxDoc
  /\ truthy (textBetween foxDoc (from (selection foxDoc))
               (to (selection foxDoc))) = true
  /\ insertedLength
       (state (snd (summarize_try (Opened (mkStream staleItems Exhausted))
                                  (mounted foxDoc))))
     <= insertedLength
          (state (snd (summarize_try
                         (Opened (mkStream
                                    (staleItems ++ [Arrives (textChunk (lit "W"))])
                                    Exhausted))
                         (mounted foxDoc))))
  /\ insertedLength
       (state (snd (summarize_try (Opened (mkStream staleItems Exhausted))
                                  (mounted foxDoc))))
     <= length (accumulatedText staleItems).
Proof.
  split; [reflexivity|]. split; [reflexivity|].
  apply (insertedLength_grows_within_the_accumulated_text (mounted foxDoc)
           foxDoc staleItems [Arrives (textChunk (lit "W"))]);
    reflexivity.
Defined.

Lemma chunks_without_text_are_ignored_witness :
  In summarize aiHandlers
  /\ run (summarize (Opened (mkStream paddedItems Exhausted))) (mounted foxDoc) =
     run (summarize
            (Opened (mkStream (withoutEmptyChunks paddedItems) Exhausted)))
         (mounted foxDoc)
  /\ run (sendMessage (Opened (mkStream paddedItems Exhausted)) (lit "Why?") None)
         (mounted foxDoc) =
     run (sendMessage
            (Opened (mkStream (withoutEmptyChunks paddedItems) Exhausted))
            (lit "Why?") None)
         (mounted foxDoc).
Proof.
  split; [left; reflexivity|].
  apply (chunks_without_text_are_ignored summarize paddedItems Exhausted
           (lit "Why?") None (mounted foxDoc)).
  left; reflexivity.
Defined.

Lemma exhausted_stream_leaves_no_stale_error_witness :
  In summarize aiHandlers
  /\ editor (set_error (Some (lit "Connection error.")) (mounted foxDoc)) =
     Some foxDoc
  /\ hasSelection (set_error (Some (lit "Connection error.")) (mounted foxDoc))
     = true
  /\ isStreaming
       (state (set_error (Some (lit "Connection error.")) (mounted foxDoc)))
     = false
  /\ truthy (textBetween foxDoc (from (selection foxDoc))
               (to (selection foxDoc))) = true
  /\ (error
        (state (run (summarize (Opened (mkStream paddedItems Exhausted)))
                    (set_error (Some (lit "Connection error."))
                       (mounted foxDoc)))) = None
      \/ error
           (state (run (summarize (Opened (mkStream paddedItems Exhausted)))
                       (set_error (Some (lit "Connection error."))
                          (mounted foxDoc)))) =
         Some (lit "Error replacing selection"))
  /\ (textCount paddedItems = 0 ->
      error
        (state (run (summarize (Opened (mkStream paddedItems Exhausted)))
                    (set_error (Some (lit "Connection error."))
                       (mounted foxDoc)))) = None).
Proof.
  split; [left; reflexivity|]. split; [reflexivity|]. split; [reflexivity|].
  split; [reflexivity|]. split; [reflexivity|].
  apply (exhausted_stream_leaves_no_stale_error summarize paddedItems
           (set_error (Some (lit "Connection error.")) (mounted foxDoc))
           foxDoc);
    [left; reflexivity|reflexivity|reflexivity|reflexivity|reflexivity].
Defined.

Lemma idle_chat_embeds_no_selected_text_witness :
  selectionRange (mounted foxDoc) = None
  /\ (truthy (trim (lit "Why?")) = true ->
      @None jsstring = None \/ @None jsstring = Some [] ->
      requests (run (sendMessage brokenStream (lit "Why?") None)
                    (mounted foxDoc)) =
      requests (mounted foxDoc)
      ++ [mkRequest
            [ mkMessage system
                (chatSystemPrompt [] (exported (mounted foxDoc)));
              mkMessage user (lit "Why?") ]
            (lit "llama3-8b-8192") true (7 # 10) 1024])
  /\ run (handleQuickAction brokenStream (lit "Why?")) (mounted foxDoc) =
     (if hasSelection (mounted foxDoc)
      then run (sendMessage brokenStream (lit "Why?") None) (mounted foxDoc)
      else mounted foxDoc).
Proof.
  split; [reflexivity|].
  apply (idle_chat_embeds_no_selected_text brokenStream (lit "Why?") None
           (mounted foxDoc)).
  reflexivity.
Defined.

Lemma summarize_keeps_selected_text_witness :
  editor (mounted foxDoc) = Some foxDoc
  /\ isStreaming (state (mounted foxDoc)) = false
  /\ from (sel foxDoc) < to (sel foxDoc)
  /\ to (sel foxDoc) <= length (text foxDoc)
  /\ option_map text
       (editor (run (summarize
                       (quiet [textChunk (lit "A"); textChunk (lit " fox")]))
                    (mounted foxDoc))) =
     Some (firstn (from (sel foxDoc)) (text foxDoc)
           ++ flat_map contentOf [textChunk (lit "A"); textChunk (lit " fox")]
           ++ skipn (from (sel foxDoc)) (text foxDoc)).
Proof.
  split; [reflexivity|]. split; [reflexivity|].
  split; [vm_compute; lia|]. split; [vm_compute; lia|].
  apply (summarize_keeps_selected_text foxDoc (mounted foxDoc)
           [textChunk (lit "A"); textChunk (lit " fox")]);
    [reflexivity|reflexivity|vm_compute; lia|vm_compute; lia].
Defined.

Lemma summarize_runs_compose_witness :
  editor (mounted foxDoc) = Some foxDoc
  /\ isStreaming (state (mounted foxDoc)) = false
  /\ from (sel foxDoc) < to (sel foxDoc)
  /\ to (sel foxDoc) <= length (text foxDoc)
  /\ editor (run (summarize (quiet [textChunk (lit " fox")]))
                 (run (summarize (quiet [textChunk (lit "A")]))
                      (mounted foxDoc))) =
     editor (run (summarize
                    (quiet ([textChunk (lit "A")] ++ [textChunk (lit " fox")])))
                 (mounted foxDoc))
  /\ hasSelection (run (summarize (quiet [textChunk (lit "A")]))
                       (mounted foxDoc)) = true
  /\ (exists d,
        editor (run (summarize (quiet [textChunk (lit "A")]))
                    (mounted foxDoc)) = Some d
        /\ textBetween d (from (selection d)) (to (selection d)) =
           textBetween foxDoc (from (selection foxDoc))
             (to (selection foxDoc))).
Proof.
  split; [reflexivity|]. split; [reflexivity|].
  split; [vm_compute; lia|]. split; [vm_compute; lia|].
  apply (summarize_runs_compose foxDoc (mounted foxDoc)
           [textChunk (lit "A")] [textChunk (lit " fox")]);
    [reflexivity|reflexivity|vm_compute; lia|vm_compute; lia].
Defined.
